(** * article-scraper-api: the cascading extraction pipeline of [flask_app.py]

    A shallow embedding of the Flask application: Python's [str] is
    [string] (one [ascii] per character, code points below 256), a [dict]
    is an association list in insertion order, and the effects of the
    strategies (logging, network fetches, sleeps) are threaded through an
    explicit state.  The libraries the application calls (urllib, requests,
    BeautifulSoup's parser, newspaper3k, trafilatura, readability,
    selenium) are taken as parameters, gathered in one record: a call that
    goes to the network, the browser or a content extractor may raise, and
    so may [urlparse], [urljoin] and the HTML parser, each of which is
    given by the value it returns and by the inputs on which it raises
    instead. *)

From Stdlib Require Import String Ascii List ZArith NArith Bool Arith Lia.
Import ListNotations.
Open Scope string_scope.
Set Warnings "-register-all".

(** ** Python's string built-ins *)

Module Py.

(** [str.isspace] on one character, also the class [\s] of [re] on [str]
    patterns: the Unicode white space below code point 256. *)
Definition isspace (c : ascii) : bool :=
  let n := N_of_ascii c in
  (((9 <=? n) && (n <=? 13)) || ((28 <=? n) && (n <=? 32))
   || (n =? 133) || (n =? 160))%N.

(** Simple lower-case mapping, as [re.IGNORECASE] applies it. *)
Definition tolower (c : ascii) : ascii :=
  let n := N_of_ascii c in
  (if ((65 <=? n) && (n <=? 90))
      || ((192 <=? n) && (n <=? 222) && negb (n =? 215))
   then ascii_of_N (n + 32) else c)%N.

Definition ci_eqb (a b : ascii) : bool := Ascii.eqb (tolower a) (tolower b).

Fixpoint lstrip (s : string) : string :=
  match s with
  | String c s' => if isspace c then lstrip s' else s
  | EmptyString => EmptyString
  end.

Fixpoint rstrip (s : string) : string :=
  match s with
  | String c s' =>
      match rstrip s' with
      | EmptyString => if isspace c then EmptyString else String c EmptyString
      | r => String c r
      end
  | EmptyString => EmptyString
  end.

(** [s.strip()] *)
Definition strip (s : string) : string := rstrip (lstrip s).

(** [bool(s)] of a string: non-empty. *)
Definition truthy (s : string) : bool :=
  match s with EmptyString => false | _ => true end.

(** [a or b] on strings. *)
Definition or_str (a b : string) : string := if truthy a then a else b.

(** [sep.join(l)] *)
Fixpoint join (sep : string) (l : list string) : string :=
  match l with
  | [] => ""
  | [x] => x
  | x :: rest => x ++ sep ++ join sep rest
  end.

(** [s.split(',')]: always at least one piece. *)
Fixpoint split_on (d : ascii) (s : string) : list string :=
  match s with
  | EmptyString => [""]
  | String c s' =>
      if Ascii.eqb c d then "" :: split_on d s'
      else match split_on d s' with
           | p :: ps => String c p :: ps
           | [] => [String c ""]
           end
  end.

(** [s.split()]: the maximal runs of characters that are not white space. *)
Fixpoint words_aux (cur : string) (s : string) : list string :=
  match s with
  | EmptyString => if truthy cur then [cur] else []
  | String c s' =>
      if isspace c
      then (if truthy cur then [cur] else []) ++ words_aux "" s'
      else words_aux (cur ++ String c "") s'
  end.

Definition words (s : string) : list string := words_aux "" s.

(** [s[:n]] *)
Definition take (n : nat) (s : string) : string := substring 0 n s.

(** [x in l] for a list of strings. *)
Definition mem (x : string) (l : list string) : bool :=
  existsb (String.eqb x) l.

(** A literal pattern matched at the start of [s] under [re.I]. *)
Fixpoint prefix_ci (p s : string) : bool :=
  match p, s with
  | EmptyString, _ => true
  | String a p', String b s' => ci_eqb a b && prefix_ci p' s'
  | String _ _, EmptyString => false
  end.

(** [re.search(p, s, re.I)] for a literal [p]. *)
Fixpoint search_ci (p s : string) : bool :=
  prefix_ci p s ||
  match s with
  | String _ s' => search_ci p s'
  | EmptyString => false
  end.

(** [s.startswith(p)] *)
Fixpoint startswith (p s : string) : bool :=
  match p, s with
  | EmptyString, _ => true
  | String a p', String b s' => Ascii.eqb a b && startswith p' s'
  | String _ _, EmptyString => false
  end.

(** [p in s] for strings. *)
Fixpoint contains (p s : string) : bool :=
  startswith p s ||
  match s with
  | String _ s' => contains p s'
  | EmptyString => false
  end.

(** Decimal rendering of a natural number, for [f'{i+1}']. *)
Fixpoint digits (fuel n : nat) (acc : string) : string :=
  match fuel with
  | O => acc
  | S f =>
      let acc' := String (ascii_of_nat (48 + n mod 10)) acc in
      if Nat.eqb (n / 10) 0 then acc' else digits f (n / 10) acc'
  end.

Definition str_of_nat (n : nat) : string := digits (S n) n "".

End Py.

(** ** The text normalizer, [clean_text] *)

(** [re.sub(r'\s+', ' ', text)]: every maximal run of white space becomes
    one space.  [in_run] tells that the previous character was white space,
    whose run has been replaced already. *)
Fixpoint sub_ws (in_run : bool) (s : string) : string :=
  match s with
  | EmptyString => EmptyString
  | String c s' =>
      if Py.isspace c
      then (if in_run then sub_ws true s' else String " " (sub_ws true s'))
      else String c (sub_ws false s')
  end.

Definition collapse_ws (s : string) : string := sub_ws false s.

(** The alternatives of the boilerplate pattern, in the pattern's order. *)
Definition boilerplate : list string :=
  ["Accept all cookies"; "Subscribe to newsletter"; "Sign up"; "Login";
   "Register"].

(** The alternation tried at the start of [s]: the first alternative that
    matches decides, and the match has that alternative's length. *)
Fixpoint match_alt (alts : list string) (s : string) : option nat :=
  match alts with
  | [] => None
  | p :: rest =>
      if Py.prefix_ci p s then Some (String.length p) else match_alt rest s
  end.

(** [re.sub(alts, '', s, flags=re.I)]: matches are found from left to right
    and do not overlap.  [skip] counts the characters of the current match
    that are still to be dropped. *)
Fixpoint sub_alt (alts : list string) (skip : nat) (s : string) : string :=
  match s with
  | EmptyString => EmptyString
  | String c s' =>
      match skip with
      | S k => sub_alt alts k s'
      | O =>
          match match_alt alts s with
          | Some (S k) => sub_alt alts k s'
          | _ => String c (sub_alt alts 0 s')
          end
      end
  end.

Definition remove_boilerplate (s : string) : string := sub_alt boilerplate 0 s.

Definition clean_text (text : string) : string :=
  if Py.truthy text
  then Py.strip (remove_boilerplate (collapse_ws text))
  else "".

(** ** Python values and dictionaries *)

(** The values a result dictionary holds.  A [set] is kept apart from a
    [list], in the order in which it iterates. *)
Inductive PyVal : Type :=
| VNone
| VBool (b : bool)
| VNum (hundredths : Z)
| VStr (s : string)
| VList (l : list PyVal)
| VSet (l : list PyVal).

(** A [dict]: its items in insertion order, no key twice. *)
Definition Dict : Type := list (string * PyVal).

Module D.

(** [d.get(k)] *)
Fixpoint get (d : Dict) (k : string) : option PyVal :=
  match d with
  | [] => None
  | (k', v) :: rest => if String.eqb k' k then Some v else get rest k
  end.

(** [d[k] = v]: an existing key keeps its place. *)
Fixpoint set (d : Dict) (k : string) (v : PyVal) : Dict :=
  match d with
  | [] => [(k, v)]
  | (k', v') :: rest =>
      if String.eqb k' k then (k, v) :: rest else (k', v') :: set rest k v
  end.

(** [bool(v)] *)
Definition truthy (v : PyVal) : bool :=
  match v with
  | VNone => false
  | VBool b => b
  | VNum z => negb (Z.eqb z 0)
  | VStr s => Py.truthy s
  | VList l | VSet l => match l with [] => false | _ => true end
  end.

(** [bool(d.get(k))] *)
Definition truthy_at (d : Dict) (k : string) : bool :=
  match get d k with Some v => truthy v | None => false end.

Definition strs (l : list string) : PyVal := VList (map VStr l).

Definition opt_str (o : option string) : PyVal :=
  match o with Some s => VStr s | None => VNone end.

End D.

(** What [json.dumps] accepts: no [set] anywhere in the value. *)
Fixpoint serializable (v : PyVal) : bool :=
  match v with
  | VSet _ => false
  | VList l => forallb serializable l
  | _ => true
  end.

(** ** The JSON body of a request *)

(** A value parsed from JSON, as [request.get_json()] returns it.  Of a
    float the handler asks only whether it is zero. *)
Inductive Json : Type :=
| JNull
| JBool (b : bool)
| JInt (n : Z)
| JFloat (zero : bool)
| JStr (s : string)
| JArr (items : list Json)
| JObj (fields : list (string * Json)).

(** An exception of werkzeug: [BadRequest] has the code 400,
    [UnsupportedMediaType] the code 415. *)
Record HTTPException : Type := {
  http_code : nat;
  http_name : string;
  http_description : string
}.

Module J.

(** [bool(j)] *)
Definition truthy (j : Json) : bool :=
  match j with
  | JNull => false
  | JBool b => b
  | JInt n => negb (Z.eqb n 0)
  | JFloat zero => negb zero
  | JStr s => Py.truthy s
  | JArr items => match items with [] => false | _ => true end
  | JObj fields => match fields with [] => false | _ => true end
  end.

(** [type(j).__name__] *)
Definition type_name (j : Json) : string :=
  match j with
  | JNull => "NoneType"
  | JBool _ => "bool"
  | JInt _ => "int"
  | JFloat _ => "float"
  | JStr _ => "str"
  | JArr _ => "list"
  | JObj _ => "dict"
  end.

(** The message of the [AttributeError] for [j.attr]. *)
Definition no_attribute (j : Json) (attr : string) : string :=
  "'" ++ type_name j ++ "' object has no attribute '" ++ attr ++ "'".

(** [d.get(k)] of a parsed object: [None] without the key. *)
Fixpoint get (fields : list (string * Json)) (k : string) : Json :=
  match fields with
  | [] => JNull
  | (k', v) :: rest => if String.eqb k' k then v else get rest k
  end.

(** [str(e)] of an HTTP exception. *)
Definition str_of_exception (e : HTTPException) : string :=
  Py.str_of_nat e.(http_code) ++ " " ++ e.(http_name) ++ ": "
  ++ e.(http_description).

End J.

(** ** Parsed HTML, as BeautifulSoup presents it *)

(** A node of the tree: a string of the text (a [NavigableString] or a
    [CData]), a string of another class, which [.text] and [get_text] of the
    elements read here leave out (a comment, a declaration, and what
    BeautifulSoup 4.9 and later finds inside [script], [style], [template],
    [rt] and [rp], at any depth), or an element. *)
Inductive Node : Type :=
| NText (s : string)
| NSpecial (s : string)
| NElem (name : string) (attrs : list (string * string)) (kids : list Node).

Module Soup.

(** The elements of a subtree in document order, its root first. *)
Fixpoint elems (n : Node) : list Node :=
  match n with
  | NText _ | NSpecial _ => []
  | NElem _ _ kids => n :: flat_map elems kids
  end.

(** Every element of the document, in document order. *)
Definition all (doc : list Node) : list Node := flat_map elems doc.

(** The elements strictly below [n]: what [n.find_all] ranges over. *)
Definition below (n : Node) : list Node :=
  match n with
  | NText _ | NSpecial _ => []
  | NElem _ _ kids => all kids
  end.

(** The strings of a subtree in document order, as [.text] and [get_text]
    collect them for the document and for an element that is no [script],
    [style], [template], [rt] or [rp]: the strings of the text. *)
Fixpoint strings (n : Node) : list string :=
  match n with
  | NText s => [s]
  | NSpecial _ => []
  | NElem _ _ kids => flat_map strings kids
  end.

(** [n.text] *)
Definition text (n : Node) : string := String.concat "" (strings n).

(** The stripped strings that are not empty. *)
Definition stripped (ss : list string) : list string :=
  filter Py.truthy (map Py.strip ss).

(** [n.get_text(strip=True)] *)
Definition get_text_strip (n : Node) : string :=
  String.concat "" (stripped (strings n)).

(** [soup.get_text(separator=' ', strip=True)] *)
Definition get_text_sep (doc : list Node) : string :=
  Py.join " " (stripped (flat_map strings doc)).

(** [n.get(k)] *)
Fixpoint lookup (attrs : list (string * string)) (k : string) : option string :=
  match attrs with
  | [] => None
  | (k', v) :: rest => if String.eqb k' k then Some v else lookup rest k
  end.

Definition get (n : Node) (k : string) : option string :=
  match n with
  | NText _ | NSpecial _ => None
  | NElem _ attrs _ => lookup attrs k
  end.

Definition named (name : string) (n : Node) : bool :=
  match n with
  | NText _ | NSpecial _ => false
  | NElem name' _ _ => String.eqb name' name
  end.

Definition named_any (names : list string) (n : Node) : bool :=
  existsb (fun name => named name n) names.

(** A filter [{k: v}] on an attribute with one value. *)
Definition attr_is (k v : string) (n : Node) : bool :=
  match get n k with Some v' => String.eqb v' v | None => false end.

(** The values of a multi-valued attribute ([class], [rel]): the parser
    splits it at white space. *)
Definition values (n : Node) (k : string) : option (list string) :=
  option_map Py.words (get n k).

(** A filter [{k: v}] on a multi-valued attribute: [v] is one of the
    values, or all of them joined by spaces. *)
Definition attr_has (k v : string) (n : Node) : bool :=
  match values n k with
  | Some vs => Py.mem v vs || String.eqb (Py.join " " vs) v
  | None => false
  end.

(** A filter [{k: True}]. *)
Definition attr_present (k : string) (n : Node) : bool :=
  match get n k with Some _ => true | None => false end.

(** A filter [{k: re.compile('a|b', re.I)}] on an attribute with one
    value. *)
Definition attr_search (k : string) (alts : list string) (n : Node) : bool :=
  match get n k with
  | Some v => existsb (fun p => Py.search_ci p v) alts
  | None => false
  end.

(** The same filter on a multi-valued attribute: the pattern is searched
    in each value, and in all of them joined by spaces. *)
Definition attr_search_any (k : string) (alts : list string) (n : Node)
  : bool :=
  match values n k with
  | Some vs =>
      existsb (fun v => existsb (fun p => Py.search_ci p v) alts)
        (vs ++ [Py.join " " vs])
  | None => false
  end.

(** The CSS selector [[k*="p"]] on a multi-valued attribute: [p] is part of
    the values joined by spaces. *)
Definition attr_contains (k p : string) (n : Node) : bool :=
  match values n k with
  | Some vs => Py.contains p (Py.join " " vs)
  | None => false
  end.

(** [soup.find_all(...)] and [soup.find(...)] with the filter [p]. *)
Definition find_all (doc : list Node) (p : Node -> bool) : list Node :=
  filter p (all doc).

Definition find (doc : list Node) (p : Node -> bool) : option Node :=
  hd_error (find_all doc p).

(** [for tag in soup(names): tag.decompose()] *)
Fixpoint prune (names : list string) (n : Node) : list Node :=
  match n with
  | NText _ | NSpecial _ => [n]
  | NElem name attrs kids =>
      if Py.mem name names then []
      else [NElem name attrs (flat_map (prune names) kids)]
  end.

Definition decompose (names : list string) (doc : list Node) : list Node :=
  flat_map (prune names) doc.

End Soup.

(** ** The libraries and the outside world *)

(** What has happened so far, newest first: the log lines, the network
    calls and the sleeps. *)
Inductive Event : Type :=
| Info (msg : string)
| Warning (msg : string)
| Error (msg : string)
| Net (client url : string)
| Sleep (what : string)
| Quit.

Definition Trace : Type := list Event.

(** A call that may raise: the exception's message, or the value. *)
Definition Exc (A : Type) : Type := (string + A)%type.

(** The message of a [ValueError] of [urllib.parse]: some text about the
    URL, which is not the message of the [TypeError] of the JSON
    encoder. *)
Record UrlError : Type := {
  ue_message : string;
  ue_about_url :
    String.eqb ue_message "Object of type set is not JSON serializable"
    = false
}.

(** A [requests.Response]. *)
Record Response : Type := {
  status_code : Z;
  content : string
}.

(** A parsed [newspaper.Article]. *)
Record Article : Type := {
  a_title : string;
  a_authors : list string;
  a_publish_date : option string;
  a_text : string;
  a_top_image : string;
  (** the library's own collection, a [set] in newspaper3k *)
  a_images : PyVal;
  a_keywords : list string;
  a_summary : string
}.

(** The metadata object of [trafilatura.extract_metadata]. *)
Record TrafMeta : Type := {
  tm_title : option string;
  tm_author : option string;
  tm_date : option string;
  tm_image : option string;
  tm_tags : list string
}.

(** The library calls.  What the network and the browser answer may depend
    on everything that happened before, so they read the trace. *)
Record Libs : Type := {
  (** [urlparse(url)] of a string: the scheme and the network location it
      returns; on some strings (one is [//[]) it raises [ValueError]
      instead, with the message given here *)
  urlparse : string -> string * string;
  urlparse_raises : string -> option UrlError;
  (** [urljoin(base, ref)]: what it returns, and the message of the
      [ValueError] it raises instead on some references *)
  urljoin : string -> string -> string;
  urljoin_raises : string -> string -> option string;
  (** [BeautifulSoup(markup, 'html.parser')]: the document it builds, and
      the message of the exception the parser raises instead on some
      markup *)
  html_parser : string -> list Node;
  html_parser_raises : string -> option string;
  (** [requests.get(url, headers=get_random_headers(), timeout=15)] *)
  requests_get : Trace -> string -> Exc Response;
  (** [article.download(); article.parse()], then [article.nlp()] *)
  newspaper_parse : Trace -> string -> Exc Article;
  newspaper_nlp : Article -> Exc Article;
  trafilatura_fetch_url : Trace -> string -> Exc (option string);
  trafilatura_extract : string -> Exc (option string);
  trafilatura_extract_metadata : string -> Exc (option TrafMeta);
  (** [Document(content).summary()] and [.short_title()] *)
  readability_summary : string -> Exc string;
  readability_short_title : string -> string;
  (** the Chrome session: [webdriver.Chrome(options)],
      [driver.execute_script(script)], [driver.get(url)], whether an article
      element shows up within the wait, and [driver.page_source] *)
  selenium_start : Trace -> Exc unit;
  selenium_execute_script : Trace -> string -> Exc unit;
  selenium_get : Trace -> string -> Exc unit;
  selenium_wait_article : Trace -> string -> bool;
  selenium_page_source : Trace -> string -> Exc string;
  (** [time.time()], in hundredths of a second, and
      [datetime.utcnow().isoformat()] *)
  time_time : Trace -> Z;
  utcnow_isoformat : Trace -> string
}.

(** ** The metadata and table extractors *)

Record Metadata : Type := {
  title : option string;
  authors : list string;
  publish_date : option string;
  description : option string;
  keywords : list string;
  images : list (option string);
  canonical_url : option string;
  site_name : option string;
  language : option string
}.

(** [elem.get('content') or elem.text.strip()] *)
Definition content_or_text (elem : Node) : string :=
  match Soup.get elem "content" with
  | Some c => Py.or_str c (Py.strip (Soup.text elem))
  | None => Py.strip (Soup.text elem)
  end.

Definition title_candidates (soup : list Node) : list (option Node) :=
  [ Soup.find soup (fun n => Soup.named "meta" n && Soup.attr_is "property" "og:title" n);
    Soup.find soup (fun n => Soup.named "meta" n && Soup.attr_is "name" "twitter:title" n);
    Soup.find soup (Soup.named "h1");
    Soup.find soup (Soup.named "title") ].

(** The loop over the candidates: the first one that is an element decides
    and ends the loop. *)
Fixpoint first_candidate (cands : list (option Node)) : option string :=
  match cands with
  | [] => None
  | Some candidate :: _ => Some (content_or_text candidate)
  | None :: rest => first_candidate rest
  end.

Definition author_selectors : list (Node -> bool) :=
  [ (fun n => Soup.named "meta" n && Soup.attr_is "name" "author" n);
    (fun n => Soup.named "meta" n && Soup.attr_is "property" "article:author" n);
    (fun n => Soup.named "meta" n && Soup.attr_is "name" "article:author" n);
    (fun n => Soup.named "span" n && Soup.attr_search_any "class" ["author"; "byline"] n);
    (fun n => Soup.named "div" n && Soup.attr_search_any "class" ["author"; "byline"] n);
    (fun n => Soup.named "a" n && Soup.attr_has "rel" "author" n);
    (fun n => Soup.named "p" n && Soup.attr_search_any "class" ["author"; "byline"] n) ].

(** One step of the inner loop over the matched elements. *)
Definition add_author (acc : list string) (elem : Node) : list string :=
  let author := content_or_text elem in
  if Py.truthy author && negb (Py.mem author acc)
  then acc ++ [author] else acc.

Definition extract_authors (soup : list Node) : list string :=
  fold_left add_author
    (flat_map (fun sel => Soup.find_all soup sel) author_selectors) [].

Definition date_selectors : list (Node -> bool) :=
  [ (fun n => Soup.named "meta" n && Soup.attr_is "property" "article:published_time" n);
    (fun n => Soup.named "meta" n && Soup.attr_is "name" "publish_date" n);
    (fun n => Soup.named "meta" n && Soup.attr_is "name" "date" n);
    (fun n => Soup.named "time" n && Soup.attr_present "datetime" n);
    (fun n => Soup.named "span" n && Soup.attr_search_any "class" ["date"; "published"] n) ].

(** [elem.get('content') or elem.get('datetime') or elem.text.strip()] *)
Definition date_of (elem : Node) : string :=
  let txt := Py.strip (Soup.text elem) in
  let from_datetime :=
    match Soup.get elem "datetime" with
    | Some d => Py.or_str d txt
    | None => txt
    end in
  match Soup.get elem "content" with
  | Some c => Py.or_str c from_datetime
  | None => from_datetime
  end.

Fixpoint extract_date (soup : list Node) (sels : list (Node -> bool))
  : option string :=
  match sels with
  | [] => None
  | sel :: rest =>
      match Soup.find soup sel with
      | Some elem => Some (date_of elem)
      | None => extract_date soup rest
      end
  end.

(** [a or b] on the results of [soup.find]. *)
Definition or_node (a b : option Node) : option Node :=
  match a with Some _ => a | None => b end.

Definition extract_keywords (soup : list Node) : list string :=
  match Soup.find soup (fun n => Soup.named "meta" n && Soup.attr_is "name" "keywords" n) with
  | Some keywords_meta =>
      let c := match Soup.get keywords_meta "content" with
               | Some c => c | None => "" end in
      map Py.strip (Py.split_on "," c)
  | None => []
  end.

(** One step of the loop over the [img] elements. *)
Definition add_image (urljoin : string -> string -> string) (url : string)
  (images : list (option string)) (img : Node) : list (option string) :=
  match Soup.get img "src" with
  | Some src =>
      let img_url := urljoin url src in
      if existsb (fun i => match i with
                           | Some u => String.eqb img_url u
                           | None => false
                           end) images
      then images else images ++ [Some img_url]
  | None => images
  end.

Definition extract_images (urljoin : string -> string -> string)
  (soup : list Node) (url : string) : list (option string) :=
  let images :=
    match Soup.find soup (fun n => Soup.named "meta" n && Soup.attr_is "property" "og:image" n) with
    | Some og_image => [Soup.get og_image "content"]
    | None => []
    end in
  fold_left (add_image urljoin url)
    (firstn 10 (Soup.find_all soup
                  (fun n => Soup.named "img" n && Soup.attr_present "src" n)))
    images.

(** The dictionary that [extract_metadata(soup, url)] returns. *)
Definition extract_metadata (L : Libs) (soup : list Node) (url : string)
  : Metadata :=
  {| title := first_candidate (title_candidates soup);
     authors := extract_authors soup;
     publish_date := extract_date soup date_selectors;
     description :=
       match or_node
               (Soup.find soup (fun n => Soup.named "meta" n && Soup.attr_is "name" "description" n))
               (Soup.find soup (fun n => Soup.named "meta" n && Soup.attr_is "property" "og:description" n))
       with
       | Some desc => Soup.get desc "content"
       | None => None
       end;
     keywords := extract_keywords soup;
     images := extract_images L.(urljoin) soup url;
     canonical_url :=
       match Soup.find soup (fun n => Soup.named "link" n && Soup.attr_has "rel" "canonical" n) with
       | Some canonical => Soup.get canonical "href"
       | None => Some url
       end;
     site_name :=
       match Soup.find soup (fun n => Soup.named "meta" n && Soup.attr_is "property" "og:site_name" n) with
       | Some site => Soup.get site "content"
       | None => None
       end;
     language :=
       match Soup.find soup (Soup.named "html") with
       | Some html_tag => Soup.get html_tag "lang"
       | None => None
       end |}.

(** The call [extract_metadata(soup, url)]: the only step that can raise is
    [urljoin] in the loop over the first ten images, and the first one that
    does ends the call; otherwise the dictionary above is returned. *)
Fixpoint first_raising (L : Libs) (url : string) (imgs : list Node)
  : option string :=
  match imgs with
  | [] => None
  | img :: rest =>
      match Soup.get img "src" with
      | Some src =>
          match L.(urljoin_raises) url src with
          | Some e => Some e
          | None => first_raising L url rest
          end
      | None => first_raising L url rest
      end
  end.

Definition extract_metadata_call (L : Libs) (soup : list Node) (url : string)
  : Exc Metadata :=
  match first_raising L url
          (firstn 10 (Soup.find_all soup
                        (fun n => Soup.named "img" n && Soup.attr_present "src" n)))
  with
  | Some e => inl e
  | None => inr (extract_metadata L soup url)
  end.

(** The call [BeautifulSoup(markup, 'html.parser')]. *)
Definition BeautifulSoup (L : Libs) (markup : string) : Exc (list Node) :=
  match L.(html_parser_raises) markup with
  | Some e => inl e
  | None => inr (L.(html_parser) markup)
  end.

(** The rows of one table: the stripped text of each cell, rows without a
    cell left out. *)
Definition table_rows (table : Node) : list (list string) :=
  filter (fun row_data => match row_data with [] => false | _ => true end)
    (map (fun row =>
            map Soup.get_text_strip
              (filter (Soup.named_any ["td"; "th"]) (Soup.below row)))
         (filter (Soup.named "tr") (Soup.below table))).

Definition extract_tables (soup : list Node) : list (list (list string)) :=
  filter (fun table_data => match table_data with [] => false | _ => true end)
    (map table_rows (Soup.find_all soup (Soup.named "table"))).

(** ** Effects: a trace of events, and exceptions *)

Definition M (A : Type) : Type := Trace -> Exc A * Trace.

Definition ret {A : Type} (a : A) : M A := fun tr => (inr a, tr).

Definition bind {A B : Type} (m : M A) (f : A -> M B) : M B :=
  fun tr =>
    match m tr with
    | (inr a, tr') => f a tr'
    | (inl e, tr') => (inl e, tr')
    end.

Notation "x <- m ;; k" := (bind m (fun x => k))
  (at level 61, m at next level, right associativity).

Definition emit (e : Event) : M unit := fun tr => (inr tt, e :: tr).

Definition raise {A : Type} (msg : string) : M A := fun tr => (inl msg, tr).

(** A pure library call that may raise. *)
Definition lift {A : Type} (x : Exc A) : M A := fun tr => (x, tr).

(** Something read off the outside world, without a trace of its own. *)
Definition ask {A : Type} (f : Trace -> Exc A) : M A := fun tr => (f tr, tr).

(** A call that goes out to the network: recorded, then answered from what
    happened so far. *)
Definition call {A : Type} (client url : string) (f : Trace -> string -> Exc A)
  : M A :=
  fun tr => (f tr url, Net client url :: tr).

(** [try: body / except Exception as e: handler(e)] *)
Definition try_except {A : Type} (body : M A) (handler : string -> M A) : M A :=
  fun tr =>
    match body tr with
    | (inl e, tr') => handler e tr'
    | r => r
    end.

(** A strategy never raises: it gives a result dictionary or [None]. *)
Definition Strategy : Type := string -> Trace -> option Dict * Trace.

(** The frame of every strategy: [try: body / except Exception as e:
    logger.warning(...)], and [return None] at the end. *)
Definition guarded (on_fail : string -> Event) (body : M (option Dict))
  : Trace -> option Dict * Trace :=
  fun tr =>
    match body tr with
    | (inr r, tr') => (r, tr')
    | (inl e, tr') => (None, on_fail e :: tr')
    end.

Definition nl : string := String (ascii_of_nat 10) "".

Definition dq : string := String (ascii_of_nat 34) "".

(** [text[:500] + '...' if len(text) > 500 else text] *)
Definition summary_of (text : string) : string :=
  if Nat.ltb 500 (String.length text) then Py.take 500 text ++ "..." else text.

(** [metadata['images'][0] if metadata['images'] else None] *)
Definition top_image_of (metadata : Metadata) : PyVal :=
  match metadata.(images) with
  | i :: _ => D.opt_str i
  | [] => VNone
  end.

(** [response.raise_for_status()] *)
Definition raise_for_status (response : Response) : M unit :=
  if ((400 <=? response.(status_code)) && (response.(status_code) <? 600))%Z
  then raise "HTTPError" else ret tt.

(** The text of the tables, as the two scanners append it to the body. *)
Definition row_text (row : list string) : string := Py.join " | " row ++ nl.

Fixpoint tables_text (i : nat) (tables : list (list (list string))) : string :=
  match tables with
  | [] => ""
  | table :: rest =>
      nl ++ "Table " ++ Py.str_of_nat (i + 1) ++ ":" ++ nl
      ++ String.concat "" (map row_text table) ++ tables_text (i + 1) rest
  end.

Definition with_tables (text : string) (tables : list (list (list string)))
  : string :=
  match tables with
  | [] => text
  | _ => text ++ (nl ++ nl ++ "Tables:" ++ nl ++ tables_text 0 tables)
  end.

(** The fragments of the matched containers: for every selector in turn,
    for every element it matches, the stripped text of each paragraph-like
    element below it that is longer than 20 characters. *)
Definition fragments (paragraph_tags : list string) (elements : list Node)
  : list string :=
  flat_map (fun elem =>
              filter (fun p_text => Nat.ltb 20 (String.length p_text))
                (map Soup.get_text_strip
                   (filter (Soup.named_any paragraph_tags) (Soup.below elem))))
    elements.

Section Strategies.

Variable L : Libs.

(** *** Strategy 1: newspaper3k *)

Definition newspaper_result (url : string) (article : Article) : Dict :=
  [ ("method", VStr "newspaper3k");
    ("title", VStr article.(a_title));
    ("authors", D.strs article.(a_authors));
    ("publish_date", D.opt_str article.(a_publish_date));
    ("text", VStr (clean_text article.(a_text)));
    ("top_image", VStr article.(a_top_image));
    ("images", article.(a_images));
    ("keywords", D.strs article.(a_keywords));
    ("summary", VStr article.(a_summary));
    ("source", VStr url);
    ("success", VBool true) ].

Definition scrape_with_newspaper : Strategy := fun url =>
  guarded (fun e => Warning ("Newspaper3k failed: " ++ e))
    (_ <- emit (Info ("Attempting scrape with Newspaper3k: " ++ url)) ;;
     parsed <- call "newspaper" url L.(newspaper_parse) ;;
     let article :=
       match L.(newspaper_nlp) parsed with
       | inr enriched => enriched
       | inl _ => parsed
       end in
     if Py.truthy article.(a_text) && Nat.ltb 100 (String.length article.(a_text))
     then ret (Some (newspaper_result url article))
     else ret None).

(** *** Strategy 2: trafilatura *)

Definition trafilatura_result (url text : string) (metadata : option TrafMeta)
  : Dict :=
  [ ("method", VStr "trafilatura");
    ("title", match metadata with Some m => D.opt_str m.(tm_title) | None => VNone end);
    ("authors",
     match metadata with
     | Some m => match m.(tm_author) with
                 | Some a => if Py.truthy a then D.strs [a] else VList []
                 | None => VList []
                 end
     | None => VList []
     end);
    ("publish_date", match metadata with Some m => D.opt_str m.(tm_date) | None => VNone end);
    ("text", VStr (clean_text text));
    ("top_image", match metadata with Some m => D.opt_str m.(tm_image) | None => VNone end);
    ("images", VList []);
    ("keywords", match metadata with Some m => D.strs m.(tm_tags) | None => VList [] end);
    ("summary", VStr (summary_of text));
    ("source", VStr url);
    ("success", VBool true) ].

Definition scrape_with_trafilatura : Strategy := fun url =>
  guarded (fun e => Warning ("Trafilatura failed: " ++ e))
    (_ <- emit (Info ("Attempting scrape with Trafilatura: " ++ url)) ;;
     fetched <- call "trafilatura" url L.(trafilatura_fetch_url) ;;
     match fetched with
     | Some downloaded =>
         if Py.truthy downloaded then
           extracted <- lift (L.(trafilatura_extract) downloaded) ;;
           metadata <- lift (L.(trafilatura_extract_metadata) downloaded) ;;
           match extracted with
           | Some text =>
               if Py.truthy text && Nat.ltb 100 (String.length text)
               then ret (Some (trafilatura_result url text metadata))
               else ret None
           | None => ret None
           end
         else ret None
     | None => ret None
     end).

(** *** Strategy 3: readability *)

Definition readability_result (url text short_title : string)
  (metadata : Metadata) : Dict :=
  [ ("method", VStr "readability");
    ("title", VStr (match metadata.(title) with
                    | Some t => Py.or_str t short_title
                    | None => short_title
                    end));
    ("authors", D.strs metadata.(authors));
    ("publish_date", D.opt_str metadata.(publish_date));
    ("text", VStr (clean_text text));
    ("top_image", top_image_of metadata);
    ("images", VList (map D.opt_str metadata.(images)));
    ("keywords", D.strs metadata.(keywords));
    ("summary", VStr (summary_of text));
    ("source", VStr url);
    ("success", VBool true) ].

Definition scrape_with_readability : Strategy := fun url =>
  guarded (fun e => Warning ("Readability failed: " ++ e))
    (_ <- emit (Info ("Attempting scrape with Readability: " ++ url)) ;;
     response <- call "requests" url L.(requests_get) ;;
     summary <- lift (L.(readability_summary) response.(content)) ;;
     soup <- lift (BeautifulSoup L summary) ;;
     let text := Soup.get_text_sep soup in
     original_soup <- lift (BeautifulSoup L response.(content)) ;;
     metadata <- lift (extract_metadata_call L original_soup url) ;;
     if Py.truthy text && Nat.ltb 100 (String.length text)
     then ret (Some (readability_result url text
                       (L.(readability_short_title) response.(content))
                       metadata))
     else ret None).

(** *** Strategy 4: BeautifulSoup *)

(** The fetch with up to three attempts; [attempt] counts from 0, and
    [left] attempts remain after this one. *)
Fixpoint fetch_with_retries (url : string) (left : nat) : M Response :=
  try_except
    (response <- call "requests" url L.(requests_get) ;;
     _ <- raise_for_status response ;;
     ret response)
    (fun e =>
       match left with
       | O => raise e
       | S left' =>
           _ <- emit (Sleep "retry") ;;
           fetch_with_retries url left'
       end).

Definition bs_content_selectors : list (Node -> bool) :=
  [ Soup.named "article";
    (fun n => Soup.named "div" n
              && Soup.attr_search_any "class"
                   ["article"; "content"; "post"; "entry"; "main"; "story"] n);
    (fun n => Soup.named "div" n
              && Soup.attr_search "id"
                   ["article"; "content"; "post"; "entry"; "main"; "story"] n);
    Soup.named "main";
    (fun n => Soup.named "section" n
              && Soup.attr_search_any "class" ["article"; "content"] n);
    (** [soup.find_all('[role="main"]')] looks for a tag of that name *)
    Soup.named ("[role=" ++ dq ++ "main" ++ dq ++ "]");
    (fun n => Soup.named "div" n && Soup.attr_is "itemprop" "articleBody" n) ].

Definition beautifulsoup_result (url text : string) (metadata : Metadata)
  (tables : list (list (list string))) : Dict :=
  [ ("method", VStr "beautifulsoup");
    ("title", D.opt_str metadata.(title));
    ("authors", D.strs metadata.(authors));
    ("publish_date", D.opt_str metadata.(publish_date));
    ("text", VStr (clean_text text));
    ("top_image", top_image_of metadata);
    ("images", VList (map D.opt_str metadata.(images)));
    ("keywords", D.strs metadata.(keywords));
    ("summary", VStr (summary_of text));
    ("tables", VList (map (fun t => VList (map D.strs t)) tables));
    ("description", D.opt_str metadata.(description));
    ("source", VStr url);
    ("success", VBool true) ].

(** The body text of the two scanners: the fragments joined by spaces,
    then the tables, and the whole visible text when that is under 200
    characters. *)
Definition scanned_text (soup : list Node) (text_content : list string)
  (tables : list (list (list string))) : string :=
  let text := with_tables (Py.join " " text_content) tables in
  if Nat.ltb (String.length text) 200 then Soup.get_text_sep soup else text.

Definition scrape_with_beautifulsoup : Strategy := fun url =>
  guarded (fun e => Warning ("BeautifulSoup failed: " ++ e))
    (_ <- emit (Info ("Attempting scrape with BeautifulSoup: " ++ url)) ;;
     response <- fetch_with_retries url 2 ;;
     parsed <- lift (BeautifulSoup L response.(content)) ;;
     let soup :=
       Soup.decompose
         ["script"; "style"; "nav"; "footer"; "header"; "aside"; "iframe";
          "noscript"]
         parsed in
     metadata <- lift (extract_metadata_call L soup url) ;;
     let text_content :=
       flat_map (fun sel =>
                   fragments ["p"; "h1"; "h2"; "h3"; "h4"; "h5"; "h6"; "li"]
                     (Soup.find_all soup sel))
         bs_content_selectors in
     let tables := extract_tables soup in
     let text := scanned_text soup text_content tables in
     if Py.truthy text && Nat.ltb 50 (String.length text)
     then ret (Some (beautifulsoup_result url text metadata tables))
     else ret None).

(** *** Strategy 5: selenium *)

(** [with get_selenium_driver() as driver: body]: once the driver exists
    it is quit on every way out, also when the script that hides the
    automation fails; when Chrome does not start there is none to quit. *)
Definition with_driver {A : Type} (body : M A) : M A :=
  fun tr =>
    match L.(selenium_start) tr with
    | inl e => (inl e, tr)
    | inr _ =>
        let (r, tr') :=
          (_ <- ask (fun tr => L.(selenium_execute_script) tr "hide webdriver") ;;
           body) tr in
        (r, Quit :: tr')
    end.

(** The CSS selectors of [soup.select]. *)
Definition selenium_content_selectors : list (Node -> bool) :=
  [ Soup.named "article";
    Soup.attr_is "role" "main";
    (fun n => Soup.named "div" n && Soup.attr_contains "class" "article" n);
    (fun n => Soup.named "div" n && Soup.attr_contains "class" "content" n);
    (fun n => Soup.named "div" n && Soup.attr_contains "class" "post" n);
    Soup.named "main" ].

Definition selenium_result (url text : string) (metadata : Metadata)
  (tables : list (list (list string))) : Dict :=
  [ ("method", VStr "selenium");
    ("title", D.opt_str metadata.(title));
    ("authors", D.strs metadata.(authors));
    ("publish_date", D.opt_str metadata.(publish_date));
    ("text", VStr (clean_text text));
    ("top_image", top_image_of metadata);
    ("images", VList (map D.opt_str metadata.(images)));
    ("keywords", D.strs metadata.(keywords));
    ("summary", VStr (summary_of text));
    ("tables", VList (map (fun t => VList (map D.strs t)) tables));
    ("source", VStr url);
    ("success", VBool true) ].

Definition scrape_with_selenium : Strategy := fun url =>
  guarded (fun e => Warning ("Selenium failed: " ++ e))
    (_ <- emit (Info ("Attempting scrape with Selenium: " ++ url)) ;;
     with_driver
       (_ <- call "selenium" url L.(selenium_get) ;;
        found <- ask (fun tr => inr (L.(selenium_wait_article) tr url)) ;;
        _ <- (if found : bool then ret tt else emit (Sleep "fallback wait")) ;;
        _ <- ask (fun tr => L.(selenium_execute_script) tr "scroll to the middle") ;;
        _ <- emit (Sleep "lazy content") ;;
        page_source <- ask (fun tr => L.(selenium_page_source) tr url) ;;
        parsed <- lift (BeautifulSoup L page_source) ;;
        let soup :=
          Soup.decompose
            ["script"; "style"; "nav"; "footer"; "header"; "aside"; "iframe"]
            parsed in
        metadata <- lift (extract_metadata_call L soup url) ;;
        let text_content :=
          flat_map (fun sel =>
                      fragments ["p"; "h1"; "h2"; "h3"; "h4"; "h5"; "li"]
                        (Soup.find_all soup sel))
            selenium_content_selectors in
        let tables := extract_tables soup in
        let text := scanned_text soup text_content tables in
        if Py.truthy text && Nat.ltb 50 (String.length text)
        then ret (Some (selenium_result url text metadata tables))
        else ret None)).

(** *** Strategy 6: the raw fallback *)

Definition raw_result (url text : string) (metadata : Metadata)
  (tables : list (list (list string))) : Dict :=
  [ ("method", VStr "raw");
    ("title", VStr (match metadata.(title) with
                    | Some t => Py.or_str t "Unknown Title"
                    | None => "Unknown Title"
                    end));
    ("authors", D.strs (match metadata.(authors) with
                        | [] => ["Unknown"]
                        | found => found
                        end));
    ("publish_date", D.opt_str metadata.(publish_date));
    ("text", VStr (clean_text text));
    ("top_image", top_image_of metadata);
    ("images", VList (map D.opt_str metadata.(images)));
    ("keywords", D.strs metadata.(keywords));
    ("summary", VStr (summary_of text));
    ("tables", VList (map (fun t => VList (map D.strs t)) tables));
    ("source", VStr url);
    ("success", VBool true) ].

Definition scrape_raw : Strategy := fun url =>
  guarded (fun e => Error ("Raw scrape failed: " ++ e))
    (_ <- emit (Info ("Attempting raw scrape: " ++ url)) ;;
     response <- call "requests" url L.(requests_get) ;;
     parsed <- lift (BeautifulSoup L response.(content)) ;;
     let soup := Soup.decompose ["script"; "style"] parsed in
     metadata <- lift (extract_metadata_call L soup url) ;;
     let text := Soup.get_text_sep soup in
     let tables := extract_tables soup in
     ret (Some (raw_result url text metadata tables))).

(** ** The [/scrape] handler *)

(** The request, as far as the handler reads it: the query arguments of a
    GET, or what [request.get_json()] does on a POST: it raises an HTTP
    exception (on a body that is no JSON, and in Flask 2.1 and later on a
    content type that is not JSON), or it returns the parsed value, which
    can be any JSON value. *)
Inductive Request : Type :=
| GET (args : list (string * string))
| POST (json : HTTPException + Json).

Record HttpResponse : Type := {
  http_status : Z;
  body : Dict
}.

(** The variable [url] after the first lines of the handler:
    [data.get('url') if data else None] of a POST, which raises when [data]
    is true and no object, and [request.args.get('url')] of a GET. *)
Definition read_url (req : Request) : Exc Json :=
  match req with
  | POST (inl e) => inl (J.str_of_exception e)
  | POST (inr data) =>
      if J.truthy data then
        match data with
        | JObj fields => inr (J.get fields "url")
        | _ => inl (J.no_attribute data "get")
        end
      else inr JNull
  | GET args =>
      inr (match Soup.lookup args "url" with
           | Some value => JStr value
           | None => JNull
           end)
  end.

(** The [url] of a request that has one, and has a string there. *)
Definition request_url (req : Request) : option string :=
  match read_url req with
  | inr (JStr url) => Some url
  | _ => None
  end.

Definition strategies : list Strategy :=
  [ scrape_with_newspaper;
    scrape_with_trafilatura;
    scrape_with_readability;
    scrape_with_beautifulsoup;
    scrape_with_selenium;
    scrape_raw ].

(** [result and result.get('success')] *)
Definition accepted (result : option Dict) : bool :=
  match result with
  | Some ((_ :: _) as d) => D.truthy_at d "success"
  | _ => false
  end.

(** The loop over the strategies.  [result] is the variable of that name:
    it holds what the last strategy tried has returned. *)
Fixpoint run_strategies (ss : list Strategy) (url : string)
  (result : option Dict) (tr : Trace) : option Dict * Trace :=
  match ss with
  | [] => (result, tr)
  | strategy :: rest =>
      let (result', tr') := strategy url tr in
      if accepted result' then (result', tr')
      else run_strategies rest url result' (Sleep "between attempts" :: tr')
  end.

(** [jsonify(d)]: [TypeError] on a value that JSON cannot hold. *)
Definition jsonify (status : Z) (d : Dict) : M HttpResponse :=
  if forallb (fun kv => serializable (snd kv)) d
  then ret {| http_status := status; body := d |}
  else raise "Object of type set is not JSON serializable".

(** The loop that turns sets into lists, [for key, value in
    result.items()].  The source has it four columns to the left of the
    [try] body it belongs to; its [return jsonify(result)] stands one level
    deeper than the [for], beside the [if], and so in the loop's body: the
    first item ends the loop. *)
Definition convert_and_return (result : Dict) : M HttpResponse :=
  match result with
  | (key, value) :: _ =>
      let result :=
        match value with
        | VSet elements => D.set result key (VList elements)
        | _ => result
        end in
      jsonify 200 result
  | [] => raise "no response"
  end.

(** The call [urlparse(url)] of a string. *)
Definition urlparse_call (url : string) : Exc (string * string) :=
  match L.(urlparse_raises) url with
  | Some e => inl e.(ue_message)
  | None => inr (L.(urlparse) url)
  end.

Definition scrape (req : Request) (tr : Trace) : HttpResponse * Trace :=
  let handler : M HttpResponse :=
    url <- lift (read_url req) ;;
    if negb (J.truthy url)
    then jsonify 400 [("error", VStr "URL parameter is required");
                      ("success", VBool false)]
    else
      match url with
      | JStr url =>
          parsed <- lift (urlparse_call url) ;;
          let (scheme, netloc) := parsed in
          if negb (Py.truthy scheme) || negb (Py.truthy netloc)
          then jsonify 400 [("error", VStr "Invalid URL format");
                            ("success", VBool false)]
          else
            _ <- emit (Info ("Scraping request for: " ++ url)) ;;
            fun tr0 =>
              let start_time := L.(time_time) tr0 in
              let (result, tr1) := run_strategies strategies url None tr0 in
              match result with
              | Some ((_ :: _) as result) =>
                  let result :=
                    D.set result "scrape_time"
                      (VNum (L.(time_time) tr1 - start_time)) in
                  let result :=
                    D.set result "timestamp"
                      (VStr (L.(utcnow_isoformat) tr1)) in
                  (** the log line goes on with the method and the time *)
                  (_ <- emit (Info ("Successfully scraped " ++ url)) ;;
                   convert_and_return result) tr1
              | _ =>
                  jsonify 500 [("error", VStr "All scraping methods failed");
                               ("success", VBool false);
                               ("url", VStr url)] tr1
              end
      | _ =>
          (** [urlparse] of a true value that is no string: it looks for
              [decode] *)
          raise (J.no_attribute url "decode")
      end in
  match handler tr with
  | (inr response, tr') => (response, tr')
  | (inl e, tr') =>
      ({| http_status := 500;
          body := [("error", VStr e); ("success", VBool false)] |},
       Error ("Scraping error: " ++ e) :: tr')
  end.

End Strategies.

(** * The vocabulary of the properties *)

(** ** The text normalizer *)

(** Every white-space character of [s] is the space itself. *)
Fixpoint plain (s : string) : bool :=
  match s with
  | EmptyString => true
  | String c s' => (negb (Py.isspace c) || Ascii.eqb c " ") && plain s'
  end.

(** [s] is empty or starts with a character that is not white space. *)
Definition starts_clean (s : string) : bool :=
  match s with
  | EmptyString => true
  | String c _ => negb (Py.isspace c)
  end.

(** Some boilerplate phrase occurs in [s], in any letter case. *)
Definition has_boilerplate (s : string) : bool :=
  existsb (fun p => Py.search_ci p s) boilerplate.

(** Two adjacent spaces occur in [s]. *)
Definition has_double_space (s : string) : bool := Py.contains "  " s.

(** ** The strategies and the orchestrator *)

(** The method names and the first log line of the six strategies, in the
    order of the [strategies] list. *)
Definition method_name (k : nat) : string :=
  nth k ["newspaper3k"; "trafilatura"; "readability"; "beautifulsoup";
         "selenium"; "raw"] "".

Definition attempt_line (k : nat) (url : string) : string :=
  nth k ["Attempting scrape with Newspaper3k: ";
         "Attempting scrape with Trafilatura: ";
         "Attempting scrape with Readability: ";
         "Attempting scrape with BeautifulSoup: ";
         "Attempting scrape with Selenium: ";
         "Attempting raw scrape: "] "" ++ url.

(** The length that the extracted text must exceed, per strategy. *)
Definition min_text (k : nat) : option nat :=
  match k with
  | 0 | 1 | 2 => Some 100
  | 3 | 4 => Some 50
  | _ => None
  end.

(** [tr'] continues [tr] by events that all satisfy [P]. *)
Definition extends (P : Event -> Prop) (tr tr' : Trace) : Prop :=
  exists es, tr' = (es ++ tr)%list /\ Forall P es.

(** Running [m] adds only events that satisfy [P], and a value it returns
    satisfies [Q]. *)
Definition triple {A : Type} (P : Event -> Prop) (m : M A) (Q : A -> Prop)
  : Prop :=
  forall tr r tr', m tr = (r, tr') ->
    extends P tr tr' /\ (forall a, r = inr a -> Q a).

(** The events strategy [k] may add: of the log lines at level info, only
    its own first line. *)
Definition own (k : nat) (url : string) (e : Event) : Prop :=
  match e with
  | Info msg => msg = attempt_line k url
  | _ => True
  end.

(** The dictionary [d] is the one strategy [k] builds from the extracted
    text [raw]. *)
Definition built_from (k : nat) (url raw : string) (d : Dict) : Prop :=
  match k with
  | 0 => exists article,
           a_text article = raw /\ d = newspaper_result url article
  | 1 => exists metadata, d = trafilatura_result url raw metadata
  | 2 => exists short_title metadata,
           d = readability_result url raw short_title metadata
  | 3 => exists metadata tables,
           d = beautifulsoup_result url raw metadata tables
  | 4 => exists metadata tables, d = selenium_result url raw metadata tables
  | 5 => exists metadata tables, d = raw_result url raw metadata tables
  | _ => False
  end.

(** What a result of strategy [k] looks like. *)
Definition result_ok (k : nat) (url : string) (d : Dict) : Prop :=
  exists raw,
    built_from k url raw d
    /\ match min_text k with
       | Some m => m < String.length raw
       | None => True
       end.

Definition returns_ok (k : nat) (url : string) (r : option Dict) : Prop :=
  forall d, r = Some d -> result_ok k url d.

(** What every strategy does: it logs its first line, adds no other line
    at level info, and a result it returns is well built. *)
Definition strategy_spec (k : nat) (s : Strategy) : Prop :=
  forall url tr r tr',
    s url tr = (r, tr') ->
    (exists es, tr' = (es ++ Info (attempt_line k url) :: tr)%list
                /\ Forall (own k url) es)
    /\ returns_ok k url r.

(** The body text that the two scanners read off a document from which
    the noise tags are gone. *)
Definition beautifulsoup_text (soup : list Node) : string :=
  scanned_text soup
    (flat_map (fun sel =>
                 fragments ["p"; "h1"; "h2"; "h3"; "h4"; "h5"; "h6"; "li"]
                   (Soup.find_all soup sel))
       bs_content_selectors)
    (extract_tables soup).

Definition selenium_text (soup : list Node) : string :=
  scanned_text soup
    (flat_map (fun sel =>
                 fragments ["p"; "h1"; "h2"; "h3"; "h4"; "h5"; "li"]
                   (Soup.find_all soup sel))
       selenium_content_selectors)
    (extract_tables soup).

(** The text that strategy [k] extracts, the one whose length it tests,
    read off what the libraries answer when they are asked in the state
    [tr0]: the article text of newspaper3k (after [nlp], when that
    worked), the extract of trafilatura, the visible text of the readable
    summary, the scanned text of the fetched page or of the browser's page
    source, and the visible text of the fetched page. *)
Definition extracted_text (L : Libs) (k : nat) (url : string) (tr0 : Trace)
  : option string :=
  match k with
  | 0 =>
      match L.(newspaper_parse) tr0 url with
      | inr parsed =>
          Some (a_text (match L.(newspaper_nlp) parsed with
                        | inr enriched => enriched
                        | inl _ => parsed
                        end))
      | inl _ => None
      end
  | 1 =>
      match L.(trafilatura_fetch_url) tr0 url with
      | inr (Some downloaded) =>
          match L.(trafilatura_extract) downloaded with
          | inr extracted => extracted
          | inl _ => None
          end
      | _ => None
      end
  | 2 =>
      match L.(requests_get) tr0 url with
      | inr response =>
          match L.(readability_summary) response.(content) with
          | inr summary =>
              match BeautifulSoup L summary with
              | inr soup => Some (Soup.get_text_sep soup)
              | inl _ => None
              end
          | inl _ => None
          end
      | inl _ => None
      end
  | 3 =>
      match L.(requests_get) tr0 url with
      | inr response =>
          match BeautifulSoup L response.(content) with
          | inr parsed =>
              Some (beautifulsoup_text
                      (Soup.decompose
                         ["script"; "style"; "nav"; "footer"; "header";
                          "aside"; "iframe"; "noscript"] parsed))
          | inl _ => None
          end
      | inl _ => None
      end
  | 4 =>
      match L.(selenium_page_source) tr0 url with
      | inr page_source =>
          match BeautifulSoup L page_source with
          | inr parsed =>
              Some (selenium_text
                      (Soup.decompose
                         ["script"; "style"; "nav"; "footer"; "header";
                          "aside"; "iframe"] parsed))
          | inl _ => None
          end
      | inl _ => None
      end
  | 5 =>
      match L.(requests_get) tr0 url with
      | inr response =>
          match BeautifulSoup L response.(content) with
          | inr parsed =>
              Some (Soup.get_text_sep
                      (Soup.decompose ["script"; "style"] parsed))
          | inl _ => None
          end
      | inl _ => None
      end
  | _ => None
  end.

(** The events the strategies before position [n] may add. *)
Definition upto (n : nat) (url : string) (e : Event) : Prop :=
  match e with
  | Info msg => exists i, i < n /\ msg = attempt_line i url
  | _ => True
  end.

(** ** Example worlds *)

Module Examples.

(** [s * n] *)
Fixpoint times (s : string) (n : nat) : string :=
  match n with
  | O => ""
  | S n' => s ++ times s n'
  end.

(** A stand-in for [urlparse] on the URLs of the examples: the scheme is
    what stands before [://], the network location what follows up to the
    next slash. *)
Fixpoint upto_slash (s : string) : string :=
  match s with
  | EmptyString => EmptyString
  | String c s' => if Ascii.eqb c "/" then EmptyString else String c (upto_slash s')
  end.

Definition ex_urlparse (url : string) : string * string :=
  if Py.startswith "https://" url
  then ("https", upto_slash (substring 8 (String.length url) url))
  else ("", "").

(** A stand-in for [urljoin] on the site of the examples. *)
Definition ex_urljoin (base ref : string) : string :=
  if Py.startswith "/" ref then "https://ex.com" ++ ref else ref.

(** Both raise on an opening bracket that is never closed, as in [//[]. *)
Definition invalid_ipv6 : UrlError :=
  {| ue_message := "Invalid IPv6 URL"; ue_about_url := eq_refl |}.

Definition ex_urlparse_raises (url : string) : option UrlError :=
  if Py.contains "[" url && negb (Py.contains "]" url)
  then Some invalid_ipv6 else None.

Definition ex_urljoin_raises (base ref : string) : option string :=
  option_map ue_message (ex_urlparse_raises ref).

Definition page_url : string := "https://ex.com/article".

(** A body text of 419 characters. *)
Definition body_text : string :=
  times "a plain " 52 ++ "end".

Definition article_page : list Node :=
  [ NElem "html" [("lang", "en")]
      [ NElem "head" []
          [ NElem "title" [] [NText "Example"] ];
        NElem "body" []
          [ NElem "article" []
              [ NElem "p" [] [NText body_text] ] ] ] ].

(** A world in which nothing answers: every library call fails. *)
Definition offline : Libs :=
  {| urlparse := ex_urlparse;
     urlparse_raises := ex_urlparse_raises;
     urljoin := ex_urljoin;
     urljoin_raises := ex_urljoin_raises;
     html_parser := fun _ => [];
     html_parser_raises := fun _ => None;
     requests_get := fun _ _ => inl "ConnectionError";
     newspaper_parse := fun _ _ => inl "ArticleException";
     newspaper_nlp := fun _ => inl "LookupError";
     trafilatura_fetch_url := fun _ _ => inr None;
     trafilatura_extract := fun _ => inr None;
     trafilatura_extract_metadata := fun _ => inr None;
     readability_summary := fun _ => inl "Unparseable";
     readability_short_title := fun _ => "";
     selenium_start := fun _ => inl "WebDriverException";
     selenium_execute_script := fun _ _ => inl "WebDriverException";
     selenium_get := fun _ _ => inl "WebDriverException";
     selenium_wait_article := fun _ _ => false;
     selenium_page_source := fun _ _ => inl "WebDriverException";
     time_time := fun tr => Z.of_nat (List.length tr);
     utcnow_isoformat := fun _ => "2024-01-01T00:00:00" |}.

(** A world in which the server answers every request with [response],
    whose body parses to [page] and is its own readable summary, and in
    which newspaper3k parses what [article] says. *)
Definition serving (article : Exc Article) (response : Response)
  (page : list Node) : Libs :=
  {| urlparse := ex_urlparse;
     urlparse_raises := ex_urlparse_raises;
     urljoin := ex_urljoin;
     urljoin_raises := ex_urljoin_raises;
     html_parser := fun _ => page;
     html_parser_raises := fun _ => None;
     requests_get := fun _ _ => inr response;
     newspaper_parse := fun _ _ => article;
     newspaper_nlp := fun _ => inl "LookupError";
     trafilatura_fetch_url := fun _ _ => inr None;
     trafilatura_extract := fun _ => inr None;
     trafilatura_extract_metadata := fun _ => inr None;
     readability_summary := fun html => inr html;
     readability_short_title := fun _ => "Example";
     selenium_start := fun _ => inl "WebDriverException";
     selenium_execute_script := fun _ _ => inl "WebDriverException";
     selenium_get := fun _ _ => inl "WebDriverException";
     selenium_wait_article := fun _ _ => false;
     selenium_page_source := fun _ _ => inl "WebDriverException";
     time_time := fun tr => Z.of_nat (List.length tr);
     utcnow_isoformat := fun _ => "2024-01-01T00:00:00" |}.

Definition ok_response : Response :=
  {| status_code := 200; content := "<html>...</html>" |}.

Definition not_found_response : Response :=
  {| status_code := 404; content := "<html>...</html>" |}.

Definition article_with (text : string) (imgs : PyVal) : Article :=
  {| a_title := "Example";
     a_authors := ["Ann"];
     a_publish_date := None;
     a_text := text;
     a_top_image := "https://ex.com/a.jpg";
     a_images := imgs;
     a_keywords := [];
     a_summary := "" |}.

(** newspaper3k and readability would both succeed. *)
Definition both_succeed : Libs :=
  serving (inr (article_with body_text (VList [VStr "https://ex.com/a.jpg"])))
    ok_response article_page.

(** newspaper3k extracts 105 characters that are all boilerplate. *)
Definition login_wall : Libs :=
  serving (inr (article_with (times "Login" 21) (VList []))) ok_response [].

(** newspaper3k succeeds, and gives the images as a set, as it does. *)
Definition images_as_set : Libs :=
  serving (inr (article_with body_text (VSet [VStr "https://ex.com/a.jpg"])))
    ok_response article_page.

(** The server answers 404 with an error page; newspaper3k fails. *)
Definition error_page : Libs :=
  serving (inl "ArticleException") not_found_response article_page.

Definition keywords_twice : list Node :=
  [ NElem "meta" [("name", "keywords"); ("content", "news, news")] [] ].

Definition relative_og_image : list Node :=
  [ NElem "meta" [("property", "og:image"); ("content", "/pics/a.jpg")] [] ].

Definition relative_img : list Node :=
  [ NElem "img" [("src", "/pics/a.jpg")] [] ].

Definition empty_og_title : list Node :=
  [ NElem "meta" [("property", "og:title"); ("content", "")] [];
    NElem "h1" [] [NText "Real Title"] ].

Definition only_h1 : list Node :=
  [ NElem "h1" [] [NText " Real Title "] ].


End Examples.

(** ** Further vocabulary *)

(** Every character of [s] is white space. *)
Fixpoint blank (s : string) : bool :=
  match s with
  | EmptyString => true
  | String c s' => Py.isspace c && blank s'
  end.

(** How often the character [d] occurs in [s]. *)
Fixpoint count_char (d : ascii) (s : string) : nat :=
  match s with
  | EmptyString => 0
  | String c s' => (if Ascii.eqb c d then 1 else 0) + count_char d s'
  end.

(** A status for which [raise_for_status] raises. *)
Definition error_status (response : Response) : bool :=
  ((400 <=? response.(status_code)) && (response.(status_code) <? 600))%Z.

(** The trace of [j + 1] requests with a sleep between any two, newest
    first. *)
Fixpoint attempts_trace (url : string) (j : nat) : Trace :=
  match j with
  | O => [Net "requests" url]
  | S j' => Net "requests" url :: Sleep "retry" :: attempts_trace url j'
  end.

(** The name of an element is one of [names]. *)
Definition tagged (names : list string) (n : Node) : bool :=
  match n with
  | NText _ | NSpecial _ => false
  | NElem name _ _ => Py.mem name names
  end.

(** The bodies with which the handler reports an error, and the result
    with the two stamps the handler adds. *)
Definition failed (e : string) : HttpResponse :=
  {| http_status := 500;
     body := [("error", VStr e); ("success", VBool false)] |}.

Definition url_required : HttpResponse :=
  {| http_status := 400;
     body := [("error", VStr "URL parameter is required");
              ("success", VBool false)] |}.

Definition invalid_url : HttpResponse :=
  {| http_status := 400;
     body := [("error", VStr "Invalid URL format"); ("success", VBool false)] |}.

Definition all_failed (url : string) : HttpResponse :=
  {| http_status := 500;
     body := [("error", VStr "All scraping methods failed");
              ("success", VBool false); ("url", VStr url)] |}.

Definition not_serializable : HttpResponse :=
  {| http_status := 500;
     body := [("error", VStr "Object of type set is not JSON serializable");
              ("success", VBool false)] |}.

(** [list(value)] of a set, as the loop over the items of the result
    stores it; any other value stays. *)
Definition as_list (value : PyVal) : PyVal :=
  match value with
  | VSet elements => VList elements
  | _ => value
  end.

Definition stamped (L : Libs) (d : Dict) (tr0 tr1 : Trace) : Dict :=
  D.set (D.set d "scrape_time" (VNum (L.(time_time) tr1 - L.(time_time) tr0)))
    "timestamp" (VStr (L.(utcnow_isoformat) tr1)).

(** The sleeps between attempts among the events [es]. *)
Fixpoint pauses (es : list Event) : nat :=
  match es with
  | [] => 0
  | Sleep what :: es' =>
      (if String.eqb what "between attempts" then 1 else 0) + pauses es'
  | _ :: es' => pauses es'
  end.

(** An event other than the sleep between attempts. *)
Definition no_pause (e : Event) : Prop := e <> Sleep "between attempts".

(** Induction on parsed HTML, with the hypothesis for every child. *)
Section NodeInduction.

Variable P : Node -> Prop.
Hypothesis Htext : forall s, P (NText s).
Hypothesis Hspecial : forall s, P (NSpecial s).
Hypothesis Helem :
  forall name attrs kids, Forall P kids -> P (NElem name attrs kids).

Fixpoint Node_induction (n : Node) : P n :=
  match n with
  | NText s => Htext s
  | NSpecial s => Hspecial s
  | NElem name attrs kids =>
      Helem name attrs kids
        ((fix all_kids (l : list Node) : Forall P l :=
            match l with
            | [] => Forall_nil P
            | k :: l' => Forall_cons k (Node_induction k) (all_kids l')
            end) kids)
  end.

End NodeInduction.

(** * Properties *)

(** ** The text normalizer *)

Example clean_text_ex1 :
  clean_text "  Hello   world Sign UP now  " = "Hello world  now".
Proof. reflexivity. Qed.

Example clean_text_ex2 : clean_text "LoLogingin" = "Login".
Proof. reflexivity. Qed.

Section NormalizerLemmas.

Lemma lstrip_starts_clean s : starts_clean (Py.lstrip s) = true.
Proof.
  induction s as [|c s IH]; simpl; [reflexivity|].
  destruct (Py.isspace c) eqn:E; [exact IH|]. simpl. now rewrite E.
Qed.

Lemma lstrip_fix s : starts_clean s = true -> Py.lstrip s = s.
Proof.
  destruct s as [|c s]; simpl; [reflexivity|].
  destruct (Py.isspace c); [discriminate|reflexivity].
Qed.

Lemma rstrip_starts_clean s :
  starts_clean s = true -> starts_clean (Py.rstrip s) = true.
Proof.
  destruct s as [|c s]; simpl; [reflexivity|]. intros H.
  destruct (Py.isspace c) eqn:E; [discriminate|].
  destruct (Py.rstrip s); simpl; now rewrite E.
Qed.

Lemma rstrip_rstrip s : Py.rstrip (Py.rstrip s) = Py.rstrip s.
Proof.
  induction s as [|c s IH]; simpl; [reflexivity|].
  destruct (Py.rstrip s) as [|d r] eqn:E.
  - destruct (Py.isspace c) eqn:Ec; simpl; [reflexivity|]. now rewrite Ec.
  - simpl in *. rewrite IH. reflexivity.
Qed.

Lemma strip_fix s : Py.strip (Py.strip s) = Py.strip s.
Proof.
  unfold Py.strip.
  rewrite (lstrip_fix (Py.rstrip (Py.lstrip s))).
  - apply rstrip_rstrip.
  - apply rstrip_starts_clean, lstrip_starts_clean.
Qed.

Lemma plain_sub_ws b s : plain (sub_ws b s) = true.
Proof.
  revert b. induction s as [|c s IH]; intros b; simpl; [reflexivity|].
  destruct (Py.isspace c) eqn:E.
  - destruct b; simpl; rewrite ?IH; reflexivity.
  - simpl. now rewrite E, IH.
Qed.

Lemma plain_sub_alt alts k s :
  plain s = true -> plain (sub_alt alts k s) = true.
Proof.
  revert k. induction s as [|c s IH]; intros k H; simpl; [reflexivity|].
  simpl in H. apply andb_true_iff in H as [Hc Hs].
  destruct k as [|k]; [|now apply IH].
  destruct (match_alt alts (String c s)) as [[|n]|]; simpl;
    rewrite ?Hc, ?IH; auto.
Qed.

Lemma plain_lstrip s : plain s = true -> plain (Py.lstrip s) = true.
Proof.
  induction s as [|c s IH]; simpl; [reflexivity|]. intros H.
  destruct (Py.isspace c) eqn:E; [|simpl; rewrite E; exact H].
  apply andb_true_iff in H as [_ Hs]. now apply IH.
Qed.

Lemma plain_rstrip s : plain s = true -> plain (Py.rstrip s) = true.
Proof.
  induction s as [|c s IH]; simpl; [reflexivity|]. intros H.
  apply andb_true_iff in H as [Hc Hs]. specialize (IH Hs).
  destruct (Py.rstrip s) as [|d r].
  - destruct (Py.isspace c) eqn:E; simpl; [reflexivity|].
    now rewrite E.
  - change (plain (String c (String d r)))
      with ((negb (Py.isspace c) || Ascii.eqb c " ") && plain (String d r)).
    now rewrite Hc, IH.
Qed.

Lemma plain_clean_text x : plain (clean_text x) = true.
Proof.
  unfold clean_text. destruct (Py.truthy x); [|reflexivity].
  apply plain_rstrip, plain_lstrip, plain_sub_alt, plain_sub_ws.
Qed.

Lemma strip_clean_text x : Py.strip (clean_text x) = clean_text x.
Proof.
  unfold clean_text. destruct (Py.truthy x); [|reflexivity].
  apply strip_fix.
Qed.

(** Collapsing changes nothing where the white space is single spaces. *)
Lemma sub_ws_fix s :
  plain s = true -> has_double_space s = false ->
  forall b, (b = true -> starts_clean s = true) -> sub_ws b s = s.
Proof.
  unfold has_double_space.
  induction s as [|c s IH]; intros Hp Hd b Hb; [reflexivity|].
  simpl in Hp. apply andb_true_iff in Hp as [Hc Hs].
  simpl in Hd. apply orb_false_iff in Hd as [Hpre Hd].
  simpl. destruct (Py.isspace c) eqn:E.
  - simpl in Hc. apply Ascii.eqb_eq in Hc. subst c.
    destruct b; [specialize (Hb eq_refl); simpl in Hb; discriminate|].
    f_equal. apply IH; auto. intros _.
    destruct s as [|d s]; [reflexivity|]. simpl.
    destruct (Py.isspace d) eqn:Ed; [|reflexivity].
    simpl in Hs. rewrite Ed in Hs. simpl in Hs.
    apply andb_true_iff in Hs as [Hd' _]. apply Ascii.eqb_eq in Hd'. subst d.
    discriminate Hpre.
  - f_equal. apply IH; auto. discriminate.
Qed.

Lemma match_alt_none alts s :
  existsb (fun p => Py.prefix_ci p s) alts = false -> match_alt alts s = None.
Proof.
  induction alts as [|p alts IH]; simpl; [reflexivity|]. intros H.
  apply orb_false_iff in H as [Hp H]. rewrite Hp. now apply IH.
Qed.

Lemma search_ci_cons p c s :
  Py.search_ci p (String c s)
  = Py.prefix_ci p (String c s) || Py.search_ci p s.
Proof. destruct p; reflexivity. Qed.

Lemma existsb_search_cons alts c s :
  existsb (fun p => Py.search_ci p (String c s)) alts = false ->
  existsb (fun p => Py.prefix_ci p (String c s)) alts = false
  /\ existsb (fun p => Py.search_ci p s) alts = false.
Proof.
  induction alts as [|p alts IH]; cbn [existsb]; [auto|]. intros H.
  apply orb_false_iff in H as [Hp H]. rewrite search_ci_cons in Hp.
  apply orb_false_iff in Hp as [Hp1 Hp2]. destruct (IH H) as [H1 H2].
  now rewrite Hp1, Hp2, H1, H2.
Qed.

(** Removing the alternatives changes nothing where none occurs. *)
Lemma sub_alt_fix alts s :
  existsb (fun p => Py.search_ci p s) alts = false -> sub_alt alts 0 s = s.
Proof.
  induction s as [|c s IH]; intros H; [reflexivity|].
  apply existsb_search_cons in H as [H1 H2].
  cbn [sub_alt]. rewrite (match_alt_none _ _ H1). now rewrite IH.
Qed.

(** None of the three steps makes a string longer. *)
Lemma length_lstrip s : String.length (Py.lstrip s) <= String.length s.
Proof.
  induction s as [|c s IH]; simpl; [lia|].
  destruct (Py.isspace c); simpl; lia.
Qed.

Lemma length_rstrip s : String.length (Py.rstrip s) <= String.length s.
Proof.
  induction s as [|c s IH]; simpl; [lia|].
  destruct (Py.rstrip s); [destruct (Py.isspace c)|]; simpl in *; lia.
Qed.

Lemma length_strip s : String.length (Py.strip s) <= String.length s.
Proof.
  unfold Py.strip. pose proof (length_rstrip (Py.lstrip s)).
  pose proof (length_lstrip s). lia.
Qed.

Lemma length_sub_ws b s : String.length (sub_ws b s) <= String.length s.
Proof.
  revert b. induction s as [|c s IH]; intros b; simpl; [lia|].
  destruct (Py.isspace c); [destruct b|]; simpl;
    match goal with |- context [sub_ws ?b' s] => specialize (IH b') end; lia.
Qed.

Lemma length_sub_alt alts k s :
  String.length (sub_alt alts k s) <= String.length s.
Proof.
  revert k. induction s as [|c s IH]; intros k; simpl; [lia|].
  destruct k as [|k]; [|specialize (IH k); lia].
  destruct (match_alt alts (String c s)) as [[|n]|]; simpl;
    match goal with |- context [sub_alt alts ?k' s] => specialize (IH k') end;
    lia.
Qed.

(** Collapsing shortens a string that has two adjacent spaces. *)
Lemma sub_ws_shortens s :
  has_double_space s = true ->
  forall b, String.length (sub_ws b s) < String.length s.
Proof.
  unfold has_double_space.
  induction s as [|c s IH]; intros H b; [discriminate|].
  cbn [Py.contains] in H. apply orb_true_iff in H as [H|H].
  - destruct s as [|d s];
      [cbn [Py.startswith] in H; now rewrite andb_false_r in H|].
    cbn [Py.startswith] in H.
    apply andb_true_iff in H as [Hc H]. apply andb_true_iff in H as [Hd _].
    apply Ascii.eqb_eq in Hc, Hd. subst c d.
    pose proof (length_sub_ws true s).
    destruct b; simpl; lia.
  - pose proof (IH H true). pose proof (IH H false).
    simpl. destruct (Py.isspace c); [destruct b|]; simpl; lia.
Qed.

Lemma match_alt_some alts s n :
  forallb Py.truthy alts = true -> match_alt alts s = Some n -> 0 < n.
Proof.
  induction alts as [|p alts IH]; simpl; [discriminate|]. intros H.
  apply andb_true_iff in H as [Hp H].
  destruct (Py.prefix_ci p s); [|now apply IH].
  intros [= <-]. destruct p; [discriminate|simpl; lia].
Qed.

Lemma match_alt_none_inv alts s :
  match_alt alts s = None ->
  existsb (fun p => Py.prefix_ci p s) alts = false.
Proof.
  induction alts as [|p alts IH]; simpl; [reflexivity|].
  destruct (Py.prefix_ci p s); [discriminate|]. exact IH.
Qed.

Lemma existsb_search_split alts c s :
  existsb (fun p => Py.search_ci p (String c s)) alts = true ->
  existsb (fun p => Py.prefix_ci p (String c s)) alts = true
  \/ existsb (fun p => Py.search_ci p s) alts = true.
Proof.
  induction alts as [|p alts IH]; cbn [existsb]; [discriminate|]. intros H.
  apply orb_true_iff in H as [H|H].
  - rewrite search_ci_cons in H. apply orb_true_iff in H as [H|H];
      rewrite H; [left|right]; auto using orb_true_r.
  - destruct (IH H) as [H'|H']; rewrite H'; [left|right];
      apply orb_true_r.
Qed.

(** Removing the alternatives shortens a string in which one occurs. *)
Lemma sub_alt_shortens alts s :
  forallb Py.truthy alts = true ->
  existsb (fun p => Py.search_ci p s) alts = true ->
  String.length (sub_alt alts 0 s) < String.length s.
Proof.
  intros Hne. induction s as [|c s IH]; intros H.
  - exfalso. revert Hne H. clear.
    induction alts as [|p alts IH]; simpl; [discriminate|]. intros Hne.
    apply andb_true_iff in Hne as [Hp Hne].
    destruct p; [discriminate|]. simpl. now apply IH.
  - cbn [sub_alt]. destruct (match_alt alts (String c s)) as [n|] eqn:E.
    + pose proof (match_alt_some _ _ _ Hne E).
      destruct n as [|n]; [lia|].
      pose proof (length_sub_alt alts n s). simpl. lia.
    + apply match_alt_none_inv in E.
      destruct (existsb_search_split _ _ _ H) as [H'|H']; [congruence|].
      specialize (IH H'). simpl. lia.
Qed.

(** The strings that [clean_text] leaves as they are, among those it can
    return. *)
Lemma clean_text_fixed_iff y :
  plain y = true -> Py.strip y = y ->
  clean_text y = y <->
  has_boilerplate y = false /\ has_double_space y = false.
Proof.
  intros Hp Hs.
  destruct y as [|c y'] eqn:Ey; [split; [intros _; split|]; reflexivity|].
  assert (Hy : clean_text y = Py.strip (remove_boilerplate (collapse_ws y)))
    by (subst y; reflexivity).
  rewrite <- Ey in *. clear Ey c y'. rewrite Hy. split.
  - intros Heq.
    assert (Hlen : String.length y
                   <= String.length (remove_boilerplate (collapse_ws y))).
    { rewrite <- Heq at 1. apply length_strip. }
    pose proof (length_sub_alt boilerplate 0 (collapse_ws y)) as H1.
    fold (remove_boilerplate (collapse_ws y)) in H1.
    destruct (has_double_space y) eqn:Hd.
    { pose proof (sub_ws_shortens y Hd false). unfold collapse_ws in *. lia. }
    assert (Hc : collapse_ws y = y).
    { apply sub_ws_fix; auto. discriminate. }
    rewrite Hc in *. split; [|reflexivity].
    destruct (has_boilerplate y) eqn:Hb; [|reflexivity].
    pose proof (sub_alt_shortens boilerplate y eq_refl Hb).
    unfold remove_boilerplate in *. lia.
  - intros [Hb Hd].
    assert (Hc : collapse_ws y = y).
    { apply sub_ws_fix; auto. discriminate. }
    rewrite Hc. unfold remove_boilerplate. rewrite sub_alt_fix; auto.
Qed.

Lemma startswith_space_clean s :
  starts_clean s = true -> Py.startswith " " s = false.
Proof.
  destruct s as [|c s]; [reflexivity|]. cbn [Py.startswith starts_clean].
  intros H. destruct (Ascii.eqb " " c) eqn:E; [|reflexivity].
  apply Ascii.eqb_eq in E. subst c. discriminate H.
Qed.

Lemma contains_double_cons c s :
  Py.contains "  " (String c s)
  = (Ascii.eqb " " c && Py.startswith " " s) || Py.contains "  " s.
Proof. reflexivity. Qed.

Lemma sub_ws_single b s :
  has_double_space (sub_ws b s) = false
  /\ (b = true -> starts_clean (sub_ws b s) = true).
Proof.
  unfold has_double_space. revert b.
  induction s as [|c s IH]; intros b; [split; reflexivity|].
  cbn [sub_ws]. destruct (Py.isspace c) eqn:E.
  - destruct b; [apply IH|]. split; [|discriminate].
    destruct (IH true) as [H1 H2]. specialize (H2 eq_refl).
    rewrite contains_double_cons, H1, (startswith_space_clean _ H2).
    reflexivity.
  - destruct (IH false) as [H1 _]. split.
    + rewrite contains_double_cons, H1.
      destruct (Ascii.eqb " " c) eqn:Ec; [|reflexivity].
      apply Ascii.eqb_eq in Ec. subst c. discriminate E.
    + intros _. cbn [starts_clean]. now rewrite E.
Qed.

(** What occurs in a stripped string occurs in the string. *)
Lemma rstrip_cons c s :
  Py.rstrip (String c s) = "" \/ Py.rstrip (String c s) = String c (Py.rstrip s).
Proof.
  cbn [Py.rstrip]. destruct (Py.rstrip s); [destruct (Py.isspace c)|]; auto.
Qed.

Lemma prefix_ci_rstrip p s :
  Py.prefix_ci p (Py.rstrip s) = true -> Py.prefix_ci p s = true.
Proof.
  revert p. induction s as [|c s IH]; intros p; [auto|].
  destruct p as [|a p]; [reflexivity|].
  destruct (rstrip_cons c s) as [-> | ->]; [discriminate|].
  cbn [Py.prefix_ci]. intros H. apply andb_true_iff in H as [Ha Hp].
  now rewrite Ha, (IH _ Hp).
Qed.

Lemma search_ci_lstrip p s :
  Py.search_ci p (Py.lstrip s) = true -> Py.search_ci p s = true.
Proof.
  induction s as [|c s IH]; [auto|]. cbn [Py.lstrip].
  destruct (Py.isspace c); [|auto]. intros H.
  rewrite search_ci_cons, (IH H). apply orb_true_r.
Qed.

Lemma search_ci_rstrip p s :
  Py.search_ci p (Py.rstrip s) = true -> Py.search_ci p s = true.
Proof.
  induction s as [|c s IH]; [auto|]. intros H. rewrite search_ci_cons.
  destruct (Py.prefix_ci p (Py.rstrip (String c s))) eqn:Ep;
    [now rewrite (prefix_ci_rstrip _ _ Ep)|].
  destruct (rstrip_cons c s) as [E|E]; rewrite E in H, Ep.
  - cbn [Py.search_ci] in H. rewrite Ep in H. discriminate H.
  - rewrite search_ci_cons, Ep in H. rewrite (IH H). apply orb_true_r.
Qed.

Lemma contains_cons p c s :
  Py.contains p (String c s)
  = Py.startswith p (String c s) || Py.contains p s.
Proof. destruct p; reflexivity. Qed.

Lemma startswith_rstrip p s :
  Py.startswith p (Py.rstrip s) = true -> Py.startswith p s = true.
Proof.
  revert p. induction s as [|c s IH]; intros p; [auto|].
  destruct p as [|a p]; [reflexivity|].
  destruct (rstrip_cons c s) as [-> | ->]; [discriminate|].
  cbn [Py.startswith]. intros H. apply andb_true_iff in H as [Ha Hp].
  now rewrite Ha, (IH _ Hp).
Qed.

Lemma contains_lstrip p s :
  Py.contains p (Py.lstrip s) = true -> Py.contains p s = true.
Proof.
  induction s as [|c s IH]; [auto|]. cbn [Py.lstrip].
  destruct (Py.isspace c); [|auto]. intros H.
  rewrite contains_cons, (IH H). apply orb_true_r.
Qed.

Lemma contains_rstrip p s :
  Py.contains p (Py.rstrip s) = true -> Py.contains p s = true.
Proof.
  induction s as [|c s IH]; [auto|]. intros H. rewrite contains_cons.
  destruct (Py.startswith p (Py.rstrip (String c s))) eqn:Ep;
    [now rewrite (startswith_rstrip _ _ Ep)|].
  destruct (rstrip_cons c s) as [E|E]; rewrite E in H, Ep.
  - cbn [Py.contains] in H. rewrite Ep in H. discriminate H.
  - rewrite contains_cons, Ep in H. rewrite (IH H). apply orb_true_r.
Qed.

Lemma has_boilerplate_strip y :
  has_boilerplate y = false -> has_boilerplate (Py.strip y) = false.
Proof.
  unfold has_boilerplate, Py.strip. intros H.
  destruct (existsb (fun p => Py.search_ci p (Py.rstrip (Py.lstrip y))) _)
    eqn:E; [|reflexivity].
  apply existsb_exists in E as (p & Hin & Hp).
  apply search_ci_rstrip, search_ci_lstrip in Hp.
  rewrite <- H. symmetry. apply existsb_exists. now exists p.
Qed.

Lemma has_double_space_strip y :
  has_double_space y = false -> has_double_space (Py.strip y) = false.
Proof.
  unfold has_double_space, Py.strip. intros H.
  destruct (Py.contains _ (Py.rstrip _)) eqn:E; [|reflexivity].
  apply contains_rstrip, contains_lstrip in E. congruence.
Qed.

(** Where collapsing leaves no boilerplate phrase, the first pass only
    collapses and strips, and the second finds nothing to do. *)
Lemma clean_text_idempotent_without_boilerplate x :
  has_boilerplate (collapse_ws x) = false ->
  clean_text (clean_text x) = clean_text x.
Proof.
  intros Hb. destruct x as [|c x'] eqn:Ex; [reflexivity|].
  rewrite <- Ex in *.
  assert (Hc : clean_text x = Py.strip (collapse_ws x)).
  { subst x. unfold clean_text, remove_boilerplate. cbn [Py.truthy].
    now rewrite (sub_alt_fix _ _ Hb). }
  rewrite Hc. apply clean_text_fixed_iff.
  - apply plain_rstrip, plain_lstrip, plain_sub_ws.
  - apply strip_fix.
  - split; [now apply has_boilerplate_strip|].
    apply has_double_space_strip, sub_ws_single.
Qed.

End NormalizerLemmas.

(** C6 (as it is stated, refuted): one pass of [clean_text] can leave a
    boilerplate phrase behind, which the next pass removes. *)
Lemma clean_text_not_idempotent :
  clean_text (clean_text "LoLogingin") <> clean_text "LoLogingin".
Proof. vm_compute. discriminate. Qed.

(** C6 (amended): a second pass of [clean_text] changes nothing exactly when
    the result of the first pass contains no boilerplate phrase, in any
    letter case, and no two adjacent spaces; in particular it changes
    nothing for every [x] that contains no boilerplate phrase once its
    white space is collapsed. *)
Theorem clean_text_idempotent_iff (x : string) :
  (clean_text (clean_text x) = clean_text x <->
   has_boilerplate (clean_text x) = false
   /\ has_double_space (clean_text x) = false)
  /\ (has_boilerplate (collapse_ws x) = false ->
      clean_text (clean_text x) = clean_text x).
Proof.
  split.
  - apply clean_text_fixed_iff; [apply plain_clean_text|apply strip_clean_text].
  - apply clean_text_idempotent_without_boilerplate.
Qed.

(** ** A small logic for the strategies *)

Section Logic.

Context {A B : Type} (P : Event -> Prop).

Lemma extends_refl tr : extends P tr tr.
Proof. exists []. split; [reflexivity|constructor]. Qed.

Lemma extends_cons e tr tr' : P e -> extends P tr tr' -> extends P tr (e :: tr').
Proof.
  intros He (es & -> & Hes). exists (e :: es). split; [reflexivity|].
  now constructor.
Qed.

Lemma extends_trans tr1 tr2 tr3 :
  extends P tr1 tr2 -> extends P tr2 tr3 -> extends P tr1 tr3.
Proof.
  intros (es1 & -> & H1) (es2 & -> & H2). exists (es2 ++ es1)%list.
  split; [now rewrite app_assoc|]. apply Forall_app. now split.
Qed.

Lemma triple_ret (a : A) (Q : A -> Prop) : Q a -> triple P (ret a) Q.
Proof.
  intros Ha tr r tr' [= <- <-]. split; [apply extends_refl|].
  now intros a' [= <-].
Qed.

Lemma triple_raise msg (Q : A -> Prop) : triple P (raise msg) Q.
Proof.
  intros tr r tr' [= <- <-]. split; [apply extends_refl|]. discriminate.
Qed.

Lemma triple_lift (x : Exc A) : triple P (lift x) (fun _ => True).
Proof. intros tr r tr' [= <- <-]. split; [apply extends_refl|]. auto. Qed.

Lemma triple_ask (f : Trace -> Exc A) : triple P (ask f) (fun _ => True).
Proof. intros tr r tr' [= <- <-]. split; [apply extends_refl|]. auto. Qed.

Lemma triple_call client url (f : Trace -> string -> Exc A) :
  P (Net client url) -> triple P (call client url f) (fun _ => True).
Proof.
  intros HP tr r tr' [= <- <-].
  split; [apply extends_cons; [exact HP|apply extends_refl]|]. auto.
Qed.

Lemma triple_bind (m : M A) (f : A -> M B) (Q1 : A -> Prop) (Q : B -> Prop) :
  triple P m Q1 -> (forall a, Q1 a -> triple P (f a) Q) ->
  triple P (bind m f) Q.
Proof.
  intros Hm Hf tr r tr'. unfold bind.
  destruct (m tr) as [[e|a] tr1] eqn:E; destruct (Hm _ _ _ E) as [H1 H2].
  - intros [= <- <-]. split; [exact H1|]. discriminate.
  - intros E2. destruct (Hf a (H2 a eq_refl) _ _ _ E2) as [H3 H4].
    split; [eapply extends_trans; eassumption|exact H4].
Qed.

Lemma triple_try_except (body : M A) (handler : string -> M A) (Q : A -> Prop) :
  triple P body Q -> (forall e, triple P (handler e) Q) ->
  triple P (try_except body handler) Q.
Proof.
  intros Hb Hh tr r tr'. unfold try_except.
  destruct (body tr) as [[e|a] tr1] eqn:E; destruct (Hb _ _ _ E) as [H1 H2].
  - intros E2. destruct (Hh e _ _ _ E2) as [H3 H4].
    split; [eapply extends_trans; eassumption|exact H4].
  - intros [= <- <-]. now split.
Qed.

End Logic.

Lemma triple_emit (P : Event -> Prop) (e : Event) :
  P e -> triple P (emit e) (fun _ => True).
Proof.
  intros HP tr r tr' [= <- <-].
  split; [apply extends_cons; [exact HP|apply extends_refl]|]. auto.
Qed.

(** The frame of a strategy: its first log line is in the trace afterwards,
    whatever follows. *)
Lemma guarded_rule (P : Event -> Prop) (Q : option Dict -> Prop)
  (on_fail : string -> Event) (e : Event) (rest : M (option Dict)) :
  P e -> (forall msg, P (on_fail msg)) -> Q None -> triple P rest Q ->
  forall tr r tr',
    guarded on_fail (_ <- emit e ;; rest) tr = (r, tr') ->
    (exists es, tr' = (es ++ e :: tr)%list /\ Forall P es) /\ Q r.
Proof.
  intros He Hf HQ0 Hrest tr r tr'. unfold guarded, bind, emit.
  destruct (rest (e :: tr)) as [[msg|a] tr1] eqn:E;
    destruct (Hrest _ _ _ E) as [(es & -> & Hes) HQ]; intros [= <- <-].
  - split; [|exact HQ0]. exists (on_fail msg :: es).
    split; [reflexivity|]. constructor; auto.
  - split; [now exists es|]. now apply HQ.
Qed.

Ltac own_event := first [exact I | reflexivity | intros; exact I].

Ltac step :=
  lazymatch goal with
  | |- triple _ (bind (emit _) _) _ =>
      eapply triple_bind; [apply triple_emit; own_event | intros ? _]
  | |- triple _ (bind (call _ _ _) _) _ =>
      eapply triple_bind; [apply triple_call; own_event | intros ? _]
  | |- triple _ (bind (lift _) _) _ =>
      eapply triple_bind; [apply triple_lift | intros ? _]
  | |- triple _ (bind (ask _) _) _ =>
      eapply triple_bind; [apply triple_ask | intros ? _]
  | |- triple _ (bind (if ?c then _ else _) _) _ =>
      eapply triple_bind with (Q1 := fun _ => True);
      [destruct c; [apply triple_ret; exact I | apply triple_emit; own_event]
      | intros ? _]
  | |- triple _ (ret _) _ => apply triple_ret
  | |- triple _ (if ?c then _ else _) _ => destruct c eqn:?
  | |- triple _ (match ?x with _ => _ end) _ => destruct x eqn:?
  end.

(** A returned dictionary built from the text [raw]. *)
Ltac result_shape raw :=
  let d := fresh "d" in
  intros d [= <-]; exists raw; split;
  [cbn [built_from]; repeat eexists
  |try match goal with
       | H : _ && _ = true |- _ =>
           apply andb_true_iff in H as [_ H]; apply Nat.ltb_lt in H; exact H
       end].

Ltac no_result := let d := fresh "d" in intros d; discriminate.

Section StrategySpecs.

Variable L : Libs.

Lemma fetch_with_retries_spec (P : Event -> Prop) url left :
  (forall e, (forall msg, e <> Info msg) -> P e) ->
  triple P (fetch_with_retries L url left) (fun _ => True).
Proof.
  intros HP.
  assert (Hnet : P (Net "requests" url)) by (apply HP; discriminate).
  assert (Hsleep : P (Sleep "retry")) by (apply HP; discriminate).
  induction left as [|left IH]; cbn [fetch_with_retries];
    (apply triple_try_except;
     [eapply triple_bind; [now apply triple_call|]; intros response _;
      eapply triple_bind with (Q1 := fun _ => True);
      [unfold raise_for_status;
       destruct (_ && _); [apply triple_raise|now apply triple_ret]
      |intros; now apply triple_ret]
     |intros e]).
  - apply triple_raise.
  - eapply triple_bind; [now apply triple_emit|]. intros _ _. exact IH.
Qed.

Lemma with_driver_spec {A : Type} (P : Event -> Prop) (body : M A) Q :
  P Quit -> triple P body Q -> triple P (with_driver L body) Q.
Proof.
  intros HP Hb tr r tr'. unfold with_driver.
  destruct (selenium_start L tr).
  - intros [= <- <-]. split; [apply extends_refl|discriminate].
  - match goal with |- context [bind ?m ?f tr] =>
      assert (Hb' : triple P (bind m f) Q)
        by (eapply triple_bind; [apply triple_ask|intros ? _; exact Hb]);
      destruct (bind m f tr) as [r1 tr1] eqn:E
    end.
    intros [= <- <-].
    destruct (Hb' _ _ _ E) as [H1 H2]. split; [|exact H2].
    now apply extends_cons.
Qed.

Lemma own_not_info k url e : (forall msg, e <> Info msg) -> own k url e.
Proof. destruct e; simpl; auto. intros H. now destruct (H msg). Qed.

Lemma scrape_with_newspaper_spec : strategy_spec 0 (scrape_with_newspaper L).
Proof.
  intros url tr r tr'. unfold scrape_with_newspaper.
  apply (guarded_rule (own 0 url) (returns_ok 0 url));
    [own_event|own_event|no_result|].
  step. cbv zeta. step; step.
  - result_shape (a_text (match newspaper_nlp L a with
                          | inl _ => a | inr enriched => enriched end)).
  - no_result.
Qed.

Lemma scrape_with_trafilatura_spec : strategy_spec 1 (scrape_with_trafilatura L).
Proof.
  intros url tr r tr'. unfold scrape_with_trafilatura.
  apply (guarded_rule (own 1 url) (returns_ok 1 url));
    [own_event|own_event|no_result|].
  repeat step; try no_result.
  match goal with H : _ && Nat.ltb 100 (String.length ?t) = true |- _ =>
    result_shape t end.
Qed.

Lemma scrape_with_readability_spec : strategy_spec 2 (scrape_with_readability L).
Proof.
  intros url tr r tr'. unfold scrape_with_readability.
  apply (guarded_rule (own 2 url) (returns_ok 2 url));
    [own_event|own_event|no_result|].
  do 3 step. cbv zeta. do 2 step. step; step; [|no_result].
  match goal with H : _ && Nat.ltb 100 (String.length ?t) = true |- _ =>
    result_shape t end.
Qed.

Lemma scrape_with_beautifulsoup_spec :
  strategy_spec 3 (scrape_with_beautifulsoup L).
Proof.
  intros url tr r tr'. unfold scrape_with_beautifulsoup.
  apply (guarded_rule (own 3 url) (returns_ok 3 url));
    [own_event|own_event|no_result|].
  eapply triple_bind;
    [apply fetch_with_retries_spec, own_not_info|intros response _].
  step. cbv zeta. step. cbv zeta. step; step; [|no_result].
  match goal with H : _ && Nat.ltb 50 (String.length ?t) = true |- _ =>
    result_shape t end.
Qed.

Lemma scrape_with_selenium_spec : strategy_spec 4 (scrape_with_selenium L).
Proof.
  intros url tr r tr'. unfold scrape_with_selenium.
  apply (guarded_rule (own 4 url) (returns_ok 4 url));
    [own_event|own_event|no_result|].
  apply with_driver_spec; [exact I|].
  do 7 step. cbv zeta. step. cbv zeta. step; step; [|no_result].
  match goal with H : _ && Nat.ltb 50 (String.length ?t) = true |- _ =>
    result_shape t end.
Qed.

Lemma scrape_raw_spec : strategy_spec 5 (scrape_raw L).
Proof.
  intros url tr r tr'. unfold scrape_raw.
  apply (guarded_rule (own 5 url) (returns_ok 5 url));
    [own_event|own_event|no_result|].
  do 2 step. cbv zeta. step. cbv zeta. step.
  match goal with |- context [raw_result url ?t _ _] => result_shape t end.
  exact I.
Qed.

Lemma strategies_spec k s :
  nth_error (strategies L) k = Some s -> strategy_spec k s.
Proof.
  unfold strategies.
  do 6 (destruct k as [|k];
        [intros [= <-];
         first [ apply scrape_with_newspaper_spec
               | apply scrape_with_trafilatura_spec
               | apply scrape_with_readability_spec
               | apply scrape_with_beautifulsoup_spec
               | apply scrape_with_selenium_spec
               | apply scrape_raw_spec ]|]).
  destruct k; discriminate.
Qed.

End StrategySpecs.

(** What the fetch with retries leaves behind. *)
Section Fetching.

Variable L : Libs.

Lemma attempts_trace_snoc url j :
  (attempts_trace url j ++ [Sleep "retry"; Net "requests" url])%list
  = Net "requests" url :: Sleep "retry" :: attempts_trace url j.
Proof. induction j as [|j IH]; simpl; [reflexivity|]. now rewrite IH. Qed.

Lemma fetch_with_retries_outcome url left :
  forall tr r tr',
    fetch_with_retries L url left tr = (r, tr') ->
    exists j,
      j <= left
      /\ tr' = (attempts_trace url j ++ tr)%list
      /\ match r with
         | inr response =>
             error_status response = false
             /\ requests_get L (tl tr') url = inr response
         | inl _ => j = left
         end.
Proof.
  induction left as [|left IH]; intros tr r tr';
    cbn [fetch_with_retries];
    unfold try_except, bind, call, raise_for_status, raise, ret, emit;
    destruct (requests_get L tr url) as [e|response] eqn:Eget;
    try (fold (error_status response);
         destruct (error_status response) eqn:Est).
  - intros [= <- <-]. exists 0. auto.
  - intros [= <- <-]. exists 0. auto.
  - intros [= <- <-]. exists 0. repeat split; auto.
  - intros H. apply IH in H as (j & Hj & -> & Hr). exists (S j).
    split; [lia|]. split.
    + cbn [attempts_trace]. rewrite <- attempts_trace_snoc.
      now rewrite <- app_assoc.
    + destruct r; [lia|]. exact Hr.
  - intros H. apply IH in H as (j & Hj & -> & Hr). exists (S j).
    split; [lia|]. split.
    + cbn [attempts_trace]. rewrite <- attempts_trace_snoc.
      now rewrite <- app_assoc.
    + destruct r; [lia|]. exact Hr.
  - intros [= <- <-]. exists 0. split; [lia|]. repeat split; auto.
Qed.

Lemma bind_emit {A : Type} (e : Event) (f : unit -> M A) tr :
  bind (emit e) f tr = f tt (e :: tr).
Proof. reflexivity. Qed.

End Fetching.

(** ** The orchestrator *)

Section Orchestrator.

Variable L : Libs.

Lemma own_upto i n url e : i < n -> own i url e -> upto n url e.
Proof. destruct e; simpl; auto. intros Hi ->. now exists i. Qed.

Lemma upto_mono m n url e : m <= n -> upto m url e -> upto n url e.
Proof.
  destruct e; simpl; auto. intros Hmn (i & Hi & ->). exists i. split; [lia|auto].
Qed.

Lemma truthy_at_get d key v :
  D.get d key = Some v -> D.truthy_at d key = D.truthy v.
Proof. unfold D.truthy_at. now intros ->. Qed.

Lemma built_from_fields k url raw d :
  built_from k url raw d ->
  D.get d "method" = Some (VStr (method_name k))
  /\ D.get d "success" = Some (VBool true)
  /\ D.get d "text" = Some (VStr (clean_text raw)).
Proof.
  do 6 (destruct k as [|k];
        [cbn [built_from]; intros H;
         repeat match goal with
                | H : exists _, _ |- _ => destruct H as [? H]
                | H : _ /\ _ |- _ => destruct H as [? H]
                end; subst; repeat split|]).
  intros [].
Qed.

Lemma result_ok_accepted k url d :
  result_ok k url d -> accepted (Some d) = true.
Proof.
  intros (raw & H & _). apply built_from_fields in H as (Hm & Hs & _).
  apply truthy_at_get in Hs.
  destruct d as [|kv d]; [discriminate|]. exact Hs.
Qed.

(** The loop goes through a prefix of rejected candidates and then carries
    on with the rest. *)
Lemma run_strategies_app pre rest url :
  forall res0 tr res tr1,
    run_strategies pre url res0 tr = (res, tr1) ->
    accepted res0 = false -> accepted res = false ->
    run_strategies (pre ++ rest)%list url res0 tr
    = run_strategies rest url res tr1.
Proof.
  induction pre as [|s pre IH]; intros res0 tr res tr1; simpl.
  - now intros [= <- <-].
  - destruct (s url tr) as [r' tr'].
    destruct (accepted r') eqn:E.
    + intros [= <- <-] _ H. congruence.
    + intros H _ H'. now apply IH.
Qed.

(** Running the strategies from position [o] on adds only their events and
    the sleeps between them. *)
Lemma run_strategies_extends ss url :
  forall o res0 tr res tr1,
    (forall i s, nth_error ss i = Some s -> strategy_spec (o + i) s) ->
    run_strategies ss url res0 tr = (res, tr1) ->
    extends (upto (o + length ss) url) tr tr1.
Proof.
  induction ss as [|s ss IH]; intros o res0 tr res tr1 Hspec; simpl.
  - intros [= <- <-]. apply extends_refl.
  - destruct (s url tr) as [r' tr'] eqn:E.
    destruct (Hspec 0 s eq_refl _ _ _ _ E) as [(es & -> & Hes) _].
    rewrite Nat.add_0_r in *.
    assert (Hfirst : extends (upto (o + S (length ss)) url) tr
                       (es ++ Info (attempt_line o url) :: tr)%list).
    { exists (es ++ [Info (attempt_line o url)])%list.
      split; [rewrite <- app_assoc; reflexivity|]. apply Forall_app. split.
      - eapply Forall_impl; [|exact Hes]. intros e. apply own_upto. lia.
      - repeat constructor. exists o. split; [lia|reflexivity]. }
    destruct (accepted r'); [intros [= <- <-]; exact Hfirst|].
    intros Hrun. eapply extends_trans; [exact Hfirst|].
    apply (IH (S o)) in Hrun.
    + destruct Hrun as (es' & -> & Hes').
      exists (es' ++ [Sleep "between attempts"])%list.
      split; [rewrite <- app_assoc; reflexivity|]. apply Forall_app. split.
      * eapply Forall_impl; [|exact Hes']. intros e. apply upto_mono. lia.
      * repeat constructor.
    + intros i s' Hi. replace (S o + i) with (o + S i) by lia.
      now apply Hspec.
Qed.

Lemma nth_error_cut {A : Type} (l : list A) k a :
  nth_error l k = Some a -> l = (firstn k l ++ a :: skipn (S k) l)%list.
Proof.
  revert k. induction l as [|x l IH]; intros [|k]; simpl; try discriminate.
  - now intros [= ->].
  - intros H. f_equal. now apply IH.
Qed.

Lemma attempt_line_inj i j url :
  i < 6 -> j < 6 -> attempt_line i url = attempt_line j url -> i = j.
Proof.
  intros Hi Hj.
  do 6 (destruct i as [|i]; [do 6 (destruct j as [|j]; [simpl; intros H; first [reflexivity|discriminate H]|]); lia|]).
  lia.
Qed.

End Orchestrator.

(** C1: when the strategies before position [k] have all been rejected and
    the strategy at position [k] returns a result, the loop over the six
    strategies ends there with that result and in the very state that
    strategy left; the result carries that strategy's method name, and no
    later strategy has logged an attempt, so none has been invoked.  With
    [k = 0]: whenever newspaper3k returns a result the method is
    newspaper3k, whatever readability would have found. *)
Theorem first_accepted_strategy_wins (L : Libs) (url : string) (tr : Trace)
  (k : nat) (s : Strategy) (res : option Dict) (tr1 : Trace) (r : Dict)
  (tr2 : Trace) :
  nth_error (strategies L) k = Some s ->
  run_strategies (firstn k (strategies L)) url None tr = (res, tr1) ->
  accepted res = false ->
  s url tr1 = (Some r, tr2) ->
  run_strategies (strategies L) url None tr = (Some r, tr2)
  /\ D.get r "method" = Some (VStr (method_name k))
  /\ exists es, tr2 = (es ++ tr)%list
       /\ forall j, k < j < 6 -> ~ In (Info (attempt_line j url)) es.
Proof.
  intros Hk Hpre Hrej Hs.
  assert (Hk6 : k < 6).
  { assert (H : nth_error (strategies L) k <> None) by congruence.
    apply nth_error_Some in H. exact H. }
  destruct (strategies_spec L k s Hk _ _ _ _ Hs) as [(es & Htr2 & Hes) Hok].
  specialize (Hok r eq_refl). pose proof (result_ok_accepted _ _ _ Hok) as Hacc.
  split; [|split; [destruct Hok as (raw & Hok & _);
                   now apply built_from_fields in Hok|]].
  - rewrite (nth_error_cut _ _ _ Hk) at 1.
    rewrite (run_strategies_app _ _ _ _ _ _ _ Hpre eq_refl Hrej).
    simpl. now rewrite Hs, Hacc.
  - apply (run_strategies_extends _ _ 0) in Hpre.
    + destruct Hpre as (es0 & -> & Hes0). simpl in Hes0.
      exists (es ++ Info (attempt_line k url) :: es0)%list.
      split; [rewrite Htr2, <- app_assoc; reflexivity|].
      intros j Hj Hin. apply in_app_or in Hin as [Hin|[Hin|Hin]].
      * rewrite Forall_forall in Hes. apply Hes in Hin. simpl in Hin.
        apply attempt_line_inj in Hin; lia.
      * injection Hin as Hin. apply attempt_line_inj in Hin; lia.
      * rewrite Forall_forall in Hes0. apply Hes0 in Hin.
        destruct Hin as (i & Hi & Hin).
        rewrite length_firstn in Hi.
        apply attempt_line_inj in Hin; lia.
    + intros i s' Hi. simpl. apply (strategies_spec L).
      rewrite nth_error_firstn in Hi. destruct (Nat.ltb i k); [exact Hi|discriminate].
Qed.

Lemma first_accepted_strategy_wins_witness :
  let tr1 := [Sleep "between attempts";
              Net "trafilatura" Examples.page_url;
              Info (attempt_line 1 Examples.page_url);
              Sleep "between attempts";
              Warning "Newspaper3k failed: ArticleException";
              Net "newspaper" Examples.page_url;
              Info (attempt_line 0 Examples.page_url)] in
  let r := readability_result Examples.page_url
             (Soup.get_text_sep Examples.article_page) "Example"
             (extract_metadata Examples.error_page Examples.article_page
                Examples.page_url) in
  let tr2 := Net "requests" Examples.page_url
             :: Info (attempt_line 2 Examples.page_url) :: tr1 in
  run_strategies (strategies Examples.error_page) Examples.page_url None []
  = (Some r, tr2)
  /\ D.get r "method" = Some (VStr "readability").
Proof.
  intros tr1 r tr2.
  destruct (first_accepted_strategy_wins Examples.error_page Examples.page_url
              [] 2 (scrape_with_readability Examples.error_page) None tr1 r tr2)
    as (Hrun & Hm & _).
  - reflexivity.
  - vm_compute. reflexivity.
  - reflexivity.
  - vm_compute. reflexivity.
  - split; [exact Hrun|exact Hm].
Defined.

(** newspaper3k and readability would both succeed: the method is
    newspaper3k. *)
Example newspaper_before_readability :
  let (result, _) :=
    run_strategies (strategies Examples.both_succeed) Examples.page_url None [] in
  match result with
  | Some r => D.get r "method" = Some (VStr "newspaper3k")
  | None => False
  end
  /\ exists r3, fst (scrape_with_readability Examples.both_succeed
                       Examples.page_url []) = Some r3.
Proof. vm_compute. split; [reflexivity|eexists; reflexivity]. Qed.

(** ** The claims about the strategies *)

Lemma length_clean_text x : String.length (clean_text x) <= String.length x.
Proof.
  unfold clean_text. destruct (Py.truthy x); [|simpl; lia].
  pose proof (length_strip (remove_boilerplate (collapse_ws x))).
  pose proof (length_sub_alt boilerplate 0 (collapse_ws x)).
  pose proof (length_sub_ws false x).
  unfold remove_boilerplate, collapse_ws in *. lia.
Qed.

(** C2 (as it is stated, refuted): newspaper3k extracts 105 characters, the
    word Login 21 times over; the result is accepted and its [text] is
    empty. *)
Lemma accepted_text_can_be_empty :
  exists r tr',
    scrape_with_newspaper Examples.login_wall Examples.page_url [] = (Some r, tr')
    /\ accepted (Some r) = true
    /\ D.get r "text" = Some (VStr "").
Proof. do 2 eexists. vm_compute. repeat split. Qed.

Section Extracted.

Variable L : Libs.

Ltac forget_start :=
  match goal with
  | |- context [Info ?line :: ?tr] => generalize (Info line :: tr); intros ?tr0
  end.

Ltac passed_test :=
  match goal with
  | H : _ && Nat.ltb _ (String.length _) = true |- _ =>
      apply andb_true_iff in H as [_ H]; apply Nat.ltb_lt in H
  end.

(** A result of a strategy stores the cleaned form of the text that the
    strategy read off the answer to its last request, and that text has
    passed the strategy's test. *)
Lemma strategy_extracts k s url tr r tr' :
  nth_error (strategies L) k = Some s ->
  s url tr = (Some r, tr') ->
  exists raw,
    extracted_text L k url (tl tr') = Some raw
    /\ built_from k url raw r
    /\ match min_text k with
       | Some m => m < String.length raw
       | None => True
       end.
Proof.
  unfold strategies.
  destruct k as [|[|[|[|[|[|k]]]]]]; cbn [nth_error];
    try (destruct k; discriminate); intros [= <-].
  - unfold scrape_with_newspaper, guarded. rewrite bind_emit. forget_start.
    unfold bind, call.
    destruct (newspaper_parse L _ url) as [e|parsed] eqn:E; [discriminate|].
    cbv zeta. destruct (_ && _) eqn:Ec; [|discriminate].
    unfold ret. intros [= <- <-]. cbv beta iota delta [tl extracted_text]. rewrite E.
    eexists. split; [reflexivity|]. passed_test.
    split; [eexists; split; reflexivity|exact Ec].
  - unfold scrape_with_trafilatura, guarded. rewrite bind_emit. forget_start.
    unfold bind, call, lift.
    destruct (trafilatura_fetch_url L _ url) as [e|[downloaded|]] eqn:E;
      try discriminate.
    destruct (Py.truthy downloaded); [|discriminate].
    destruct (trafilatura_extract L downloaded) as [e|[text|]] eqn:Ex;
      try discriminate;
      destruct (trafilatura_extract_metadata L downloaded) as [e'|metadata];
      try discriminate.
    destruct (_ && _) eqn:Ec; [|discriminate].
    unfold ret. intros [= <- <-]. cbv beta iota delta [tl extracted_text]. rewrite E, Ex.
    eexists. split; [reflexivity|]. passed_test.
    split; [eexists; reflexivity|exact Ec].
  - unfold scrape_with_readability, guarded. rewrite bind_emit. forget_start.
    unfold bind, call, lift.
    destruct (requests_get L _ url) as [e|response] eqn:E; [discriminate|].
    destruct (readability_summary L _) as [e|summary] eqn:Es; [discriminate|].
    destruct (BeautifulSoup L summary) as [e|soup] eqn:Ep; [discriminate|].
    destruct (BeautifulSoup L (content response)) as [e|original_soup];
      [discriminate|].
    destruct (extract_metadata_call L original_soup url) as [e|metadata];
      [discriminate|].
    cbv zeta. destruct (_ && _) eqn:Ec; [|discriminate].
    unfold ret. intros [= <- <-]. cbv beta iota delta [tl extracted_text]. rewrite E, Es, Ep.
    eexists. split; [reflexivity|]. passed_test.
    split; [do 2 eexists; reflexivity|exact Ec].
  - unfold scrape_with_beautifulsoup, guarded. rewrite bind_emit. forget_start.
    unfold bind at 1.
    destruct (fetch_with_retries L url 2 _) as [[e|response] tr1] eqn:E;
      [discriminate|].
    apply fetch_with_retries_outcome in E as (j & _ & -> & _ & Hget).
    unfold bind, lift.
    destruct (BeautifulSoup L (content response)) as [e|parsed] eqn:Ep;
      [discriminate|].
    cbv zeta.
    destruct (extract_metadata_call L _ url) as [e|metadata]; [discriminate|].
    destruct (_ && _) eqn:Ec; [|discriminate].
    unfold ret. intros [= <- <-]. cbv beta iota delta [extracted_text]. rewrite Hget, Ep.
    eexists. split; [reflexivity|]. passed_test.
    split; [do 2 eexists; reflexivity|exact Ec].
  - unfold scrape_with_selenium, guarded. rewrite bind_emit. forget_start.
    unfold with_driver.
    destruct (selenium_start L _) as [e|[]]; [discriminate|].
    unfold bind, ask, call, lift, emit, ret.
    destruct (selenium_execute_script L _ "hide webdriver"); [discriminate|].
    destruct (selenium_get L _ url); [discriminate|].
    destruct (selenium_wait_article L _ url);
      (destruct (selenium_execute_script L _ "scroll to the middle");
       [discriminate|];
       destruct (selenium_page_source L _ url) as [e|page_source] eqn:E;
       [discriminate|];
       destruct (BeautifulSoup L page_source) as [e|parsed] eqn:Ep;
       [discriminate|]; cbv zeta;
       destruct (extract_metadata_call L _ url) as [e|metadata];
       [discriminate|];
       destruct (_ && _) eqn:Ec; [|discriminate];
       intros [= <- <-]; cbv beta iota delta [tl extracted_text]; rewrite E, Ep;
       eexists; (split; [reflexivity|]); passed_test;
       (split; [do 2 eexists; reflexivity|exact Ec])).
  - unfold scrape_raw, guarded. rewrite bind_emit. forget_start.
    unfold bind, call, lift.
    destruct (requests_get L _ url) as [e|response] eqn:E; [discriminate|].
    destruct (BeautifulSoup L (content response)) as [e|parsed] eqn:Ep;
      [discriminate|].
    cbv zeta.
    destruct (extract_metadata_call L _ url) as [e|metadata]; [discriminate|].
    unfold ret. intros [= <- <-]. cbv beta iota delta [tl extracted_text]. rewrite E, Ep.
    eexists. split; [reflexivity|].
    split; [do 2 eexists; reflexivity|exact I].
Qed.

End Extracted.

(** C2 (amended): a result that one of the six strategies returns stores
    [clean_text raw], where [raw] is the text the strategy extracted from
    the answer to its last request, the very text whose length it tested:
    [raw] is longer than the strategy's minimum (100, 100, 100, 50, 50), so
    not empty, for the first five strategies, and under no condition for
    the raw fallback.  The stored text is never longer than [raw]; it can
    be shorter than the minimum. *)
Theorem accepted_text_threshold_on_extracted_text (L : Libs) (k : nat)
  (s : Strategy) (url : string) (tr : Trace) (r : Dict) (tr' : Trace) :
  nth_error (strategies L) k = Some s ->
  s url tr = (Some r, tr') ->
  exists raw,
    extracted_text L k url (tl tr') = Some raw
    /\ D.get r "text" = Some (VStr (clean_text raw))
    /\ String.length (clean_text raw) <= String.length raw
    /\ match min_text k with
       | Some m => m < String.length raw /\ raw <> ""
       | None => k = 5
       end.
Proof.
  intros Hk Hs.
  destruct (strategy_extracts L k s url tr r tr' Hk Hs) as (raw & Hx & Hb & Hmin).
  exists raw. split; [exact Hx|].
  split; [now apply built_from_fields in Hb|].
  split; [apply length_clean_text|].
  assert (Hk6 : k < 6).
  { assert (H : nth_error (strategies L) k <> None) by congruence.
    apply nth_error_Some in H. exact H. }
  destruct k as [|[|[|[|[|[|k]]]]]]; cbn [min_text] in *;
    try (split; [exact Hmin|intros ->; simpl in Hmin; lia]);
    [reflexivity|lia].
Qed.

Lemma accepted_text_threshold_on_extracted_text_witness :
  exists raw,
    extracted_text Examples.both_succeed 0 Examples.page_url
      [Info (attempt_line 0 Examples.page_url)] = Some raw
    /\ 100 < String.length raw.
Proof.
  destruct (accepted_text_threshold_on_extracted_text Examples.both_succeed 0
              (scrape_with_newspaper Examples.both_succeed)
              Examples.page_url [] _ _ eq_refl eq_refl)
    as (raw & Hx & _ & _ & Hmin & _).
  exists raw. split; [exact Hx|exact Hmin].
Defined.

(** ** The request handler *)

Lemma request_url_read req url :
  request_url req = Some url -> read_url req = inr (JStr url).
Proof.
  unfold request_url. destruct (read_url req) as [e|[]]; try discriminate.
  now intros [= ->].
Qed.

(** C3 (as it is stated, refuted): the empty [url] has neither scheme nor
    network location, and the answer is another error. *)
Lemma empty_url_gets_other_error :
  request_url (GET [("url", "")]) = Some ""
  /\ fst (urlparse Examples.offline "") = ""
  /\ scrape Examples.offline (GET [("url", "")]) []
     = ({| http_status := 400;
           body := [("error", VStr "URL parameter is required");
                    ("success", VBool false)] |}, []).
Proof. vm_compute. repeat split. Qed.

(** C3 (amended): a request whose [url] is a string that is not empty, that
    [urlparse] accepts and that lacks a scheme or a network location is
    answered with 400 and the error "Invalid URL format", and the trace is
    as before: no strategy has run, nothing was fetched.  When [urlparse]
    raises on the string, as it does on [//[], the answer is 500 with the
    message of the exception, and again no strategy has run: only the
    error is logged. *)
Theorem malformed_url_rejected (L : Libs) (req : Request) (url : string)
  (tr : Trace) :
  request_url req = Some url ->
  url <> "" ->
  (urlparse_raises L url = None ->
   fst (urlparse L url) = "" \/ snd (urlparse L url) = "" ->
   scrape L req tr
   = ({| http_status := 400;
         body := [("error", VStr "Invalid URL format");
                  ("success", VBool false)] |}, tr))
  /\ (forall e, urlparse_raises L url = Some e ->
      scrape L req tr
      = ({| http_status := 500;
            body := [("error", VStr (ue_message e));
                     ("success", VBool false)] |},
         Error ("Scraping error: " ++ ue_message e) :: tr)).
Proof.
  intros Hreq Hne. unfold scrape, bind, lift.
  rewrite (request_url_read _ _ Hreq).
  destruct url as [|c url]; [congruence|].
  cbn [J.truthy Py.truthy negb]. unfold urlparse_call. split.
  - intros -> Hparts.
    destruct (urlparse L (String c url)) as [scheme netloc]. simpl in Hparts.
    destruct Hparts as [-> | ->]; [reflexivity|].
    destruct scheme; reflexivity.
  - intros e ->. reflexivity.
Qed.

Lemma malformed_url_rejected_witness :
  scrape Examples.offline (GET [("url", "not-a-url")]) []
  = ({| http_status := 400;
        body := [("error", VStr "Invalid URL format");
                 ("success", VBool false)] |}, [])
  /\ scrape Examples.offline (POST (inr (JObj [("url", JStr "//[")]))) []
     = ({| http_status := 500;
           body := [("error", VStr "Invalid IPv6 URL");
                    ("success", VBool false)] |},
        [Error "Scraping error: Invalid IPv6 URL"]).
Proof.
  split.
  - apply (malformed_url_rejected Examples.offline _ "not-a-url");
      [reflexivity|discriminate|reflexivity|left; reflexivity].
  - refine (proj2 (malformed_url_rejected Examples.offline
                     (POST (inr (JObj [("url", JStr "//[")]))) "//[" []
                     eq_refl _) Examples.invalid_ipv6 eq_refl).
    discriminate.
Defined.

(** C5 (the code at the failing input): newspaper3k succeeds and gives its
    images as a set.  The conversion loop returns at its first item, the
    method name, so the set is still there when the result is encoded: the
    answer is 500. *)
Theorem set_field_reaches_jsonify :
  accepted (fst (scrape_with_newspaper Examples.images_as_set
                   Examples.page_url [])) = true
  /\ fst (scrape Examples.images_as_set (GET [("url", Examples.page_url)]) [])
     = {| http_status := 500;
          body := [("error", VStr "Object of type set is not JSON serializable");
                   ("success", VBool false)] |}.
Proof. vm_compute. split; reflexivity. Qed.

(** ** The raw fallback *)

Lemma extract_metadata_call_value (L : Libs) soup url metadata :
  extract_metadata_call L soup url = inr metadata ->
  metadata = extract_metadata L soup url.
Proof.
  unfold extract_metadata_call. destruct (first_raising L url _); [discriminate|].
  now intros [= <-].
Qed.

Lemma BeautifulSoup_value (L : Libs) markup parsed :
  BeautifulSoup L markup = inr parsed -> parsed = html_parser L markup.
Proof.
  unfold BeautifulSoup. destruct (html_parser_raises L markup); [discriminate|].
  now intros [= <-].
Qed.




(** C9 (the code at the failing input): the server answers 404 with an
    error page.  The BeautifulSoup strategy, which calls
    [raise_for_status], returns nothing; readability and the raw fallback
    do not look at the status and build a result from the error page. *)
Theorem error_page_becomes_result :
  status_code Examples.not_found_response = 404%Z
  /\ fst (scrape_with_beautifulsoup Examples.error_page Examples.page_url [])
     = None
  /\ accepted (fst (scrape_with_readability Examples.error_page
                      Examples.page_url [])) = true
  /\ accepted (fst (scrape_raw Examples.error_page Examples.page_url []))
     = true.
Proof. vm_compute. repeat split. Qed.

(** ** The metadata extractor *)

Section MetadataLemmas.

Lemma NoDup_snoc {A : Type} (l : list A) (a : A) :
  NoDup l -> ~ In a l -> NoDup (l ++ [a]).
Proof.
  induction 1 as [|x l Hx Hl IH]; intros Ha; simpl.
  - repeat constructor. intros [].
  - constructor.
    + rewrite in_app_iff. intros [H|[H|[]]]; [auto|].
      apply Ha. now left.
    + apply IH. intros H. apply Ha. now right.
Qed.

Lemma mem_false x l : Py.mem x l = false -> ~ In x l.
Proof.
  unfold Py.mem. intros H Hin.
  assert (existsb (String.eqb x) l = true); [|congruence].
  apply existsb_exists. exists x. split; [exact Hin|apply String.eqb_refl].
Qed.

Lemma add_author_NoDup acc elem : NoDup acc -> NoDup (add_author acc elem).
Proof.
  intros H. unfold add_author.
  destruct (Py.truthy _); simpl; [|exact H].
  destruct (Py.mem _ acc) eqn:E; simpl; [exact H|].
  apply NoDup_snoc; [exact H|now apply mem_false].
Qed.

Lemma add_image_NoDup urljoin url acc img :
  NoDup acc -> NoDup (add_image urljoin url acc img).
Proof.
  intros H. unfold add_image. destruct (Soup.get img "src") as [src|]; [|exact H].
  destruct (existsb _ acc) eqn:E; [exact H|].
  apply NoDup_snoc; [exact H|]. intros Hin.
  assert (existsb (fun i => match i with
                            | Some u => String.eqb (urljoin url src) u
                            | None => false
                            end) acc = true); [|congruence].
  apply existsb_exists. exists (Some (urljoin url src)).
  split; [exact Hin|apply String.eqb_refl].
Qed.

Lemma fold_left_NoDup {A B : Type} (f : list A -> B -> list A) l :
  (forall acc b, NoDup acc -> NoDup (f acc b)) ->
  forall acc, NoDup acc -> NoDup (fold_left f l acc).
Proof.
  intros Hf. induction l as [|b l IH]; intros acc H; simpl; [exact H|].
  apply IH, Hf, H.
Qed.

(** The loop over the title candidates, by position. *)
Lemma first_candidate_at cands :
  forall k elem,
    nth_error cands k = Some (Some elem) ->
    (forall j, j < k -> nth_error cands j = Some None) ->
    first_candidate cands = Some (content_or_text elem).
Proof.
  induction cands as [|c cands IH]; intros [|k] elem; simpl; try discriminate.
  - now intros [= ->].
  - intros Hk Hbefore. pose proof (Hbefore 0 ltac:(lia)) as H0. simpl in H0.
    injection H0 as ->. apply (IH k); [exact Hk|].
    intros j Hj. apply (Hbefore (S j)). lia.
Qed.

Lemma first_candidate_none cands :
  first_candidate cands = None <-> (forall c, In c cands -> c = None).
Proof.
  induction cands as [|[elem|] cands IH]; simpl.
  - split; [intros _ c []|reflexivity].
  - split; [discriminate|]. intros H. now specialize (H _ (or_introl eq_refl)).
  - rewrite IH. split.
    + intros H c [<-|Hc]; auto.
    + intros H c Hc. apply H. now right.
Qed.

End MetadataLemmas.

(** C7 (as it is stated, refuted): a keyword written twice in the
    [keywords] meta comes out twice. *)
Lemma keywords_keep_duplicates :
  ~ NoDup (keywords (extract_metadata Examples.offline Examples.keywords_twice
                       Examples.page_url)).
Proof.
  vm_compute. intros H. inversion H as [|x l Hin _]. apply Hin. now left.
Qed.

(** C7 (amended): for every document, the [authors] and the [images] of the
    metadata have no entry twice; the [keywords] are the comma-separated
    entries of the meta, stripped, in their order, duplicates included. *)
Theorem authors_images_no_duplicates (L : Libs) (soup : list Node)
  (url : string) :
  let metadata := extract_metadata L soup url in
  NoDup metadata.(authors)
  /\ NoDup metadata.(images)
  /\ metadata.(keywords)
     = match Soup.find soup (fun n => Soup.named "meta" n
                                      && Soup.attr_is "name" "keywords" n) with
       | Some keywords_meta =>
           map Py.strip
             (Py.split_on ","
                (match Soup.get keywords_meta "content" with
                 | Some c => c
                 | None => ""
                 end))
       | None => []
       end.
Proof.
  cbv zeta. split; [|split; [|reflexivity]].
  - cbn [authors extract_metadata]. unfold extract_authors.
    apply fold_left_NoDup; [apply add_author_NoDup|constructor].
  - cbn [images extract_metadata]. unfold extract_images.
    apply fold_left_NoDup; [apply add_image_NoDup|].
    destruct (Soup.find soup _); repeat constructor. intros [].
Qed.

(** C8 (the code at the failing input): a relative [og:image] is stored as
    it stands, while the same reference in an [img] goes through
    [urljoin] with the page URL. *)
Theorem og_image_stored_unresolved (L : Libs) :
  images (extract_metadata L Examples.relative_og_image Examples.page_url)
  = [Some "/pics/a.jpg"]
  /\ images (extract_metadata L Examples.relative_img Examples.page_url)
     = [Some (urljoin L Examples.page_url "/pics/a.jpg")].
Proof. split; reflexivity. Qed.

(** C10 (as it is stated, refuted): an [og:title] meta with an empty
    content ends the search, although the first [h1] has a text: the title
    is the empty string. *)
Lemma empty_og_title_shadows_h1 :
  title (extract_metadata Examples.offline Examples.empty_og_title
           Examples.page_url) = Some ""
  /\ option_map content_or_text
       (Soup.find Examples.empty_og_title (Soup.named "h1"))
     = Some "Real Title".
Proof. vm_compute. split; reflexivity. Qed.

(** C10 (amended): the title comes from the first of the four selectors,
    in the order [og:title] meta, [twitter:title] meta, first [h1],
    [title], that finds an element: it is that element's [content]
    attribute when that is not empty, else its stripped text, which may be
    empty.  The title is null exactly when none of the four finds an
    element. *)
Theorem title_from_first_matching_selector (L : Libs) (soup : list Node)
  (url : string) :
  (forall k elem,
      nth_error (title_candidates soup) k = Some (Some elem) ->
      (forall j, j < k -> nth_error (title_candidates soup) j = Some None) ->
      title (extract_metadata L soup url) = Some (content_or_text elem))
  /\ (title (extract_metadata L soup url) = None <->
      forall c, In c (title_candidates soup) -> c = None).
Proof.
  split.
  - intros k elem. apply first_candidate_at.
  - apply first_candidate_none.
Qed.

Lemma title_from_first_matching_selector_witness :
  title (extract_metadata Examples.offline Examples.only_h1 Examples.page_url)
  = Some "Real Title".
Proof.
  refine (proj1 (title_from_first_matching_selector Examples.offline
                   Examples.only_h1 Examples.page_url)
            2 (NElem "h1" [] [NText " Real Title "]) eq_refl _).
  intros [|[|j]] Hj; [reflexivity|reflexivity|lia].
Defined.

Lemma clean_text_idempotent_iff_witness :
  clean_text (clean_text "  Hello   world ") = clean_text "  Hello   world "
  /\ clean_text (clean_text "a  log  in ") = clean_text "a  log  in ".
Proof.
  split.
  - apply (proj2 (proj1 (clean_text_idempotent_iff "  Hello   world "))).
    split; reflexivity.
  - apply (proj2 (clean_text_idempotent_iff "a  log  in ")). reflexivity.
Defined.

(** * Further properties of the code *)

(** ** The text normalizer and the summary *)

Section MoreNormalizer.

Lemma blank_sub_ws_true s : blank s = true -> sub_ws true s = "".
Proof.
  induction s as [|c s IH]; [reflexivity|]. simpl. intros H.
  apply andb_true_iff in H as [Hc Hs]. rewrite Hc. now apply IH.
Qed.

Lemma length_take n s :
  String.length (Py.take n s) = Nat.min n (String.length s).
Proof.
  unfold Py.take. revert n.
  induction s as [|c s IH]; intros [|n]; simpl; auto.
Qed.

Lemma length_append s1 s2 :
  String.length (s1 ++ s2) = String.length s1 + String.length s2.
Proof. induction s1 as [|c s1 IH]; simpl; auto. Qed.

End MoreNormalizer.

(** X1: the first step of [clean_text] alone is idempotent: after it no two
    white-space characters are adjacent and all of them are spaces, so
    collapsing again changes nothing. *)
Theorem collapse_ws_idempotent (x : string) :
  has_double_space (collapse_ws x) = false
  /\ plain (collapse_ws x) = true
  /\ collapse_ws (collapse_ws x) = collapse_ws x.
Proof.
  unfold collapse_ws. destruct (sub_ws_single false x) as [Hd _].
  split; [exact Hd|]. split; [apply plain_sub_ws|].
  apply sub_ws_fix; [apply plain_sub_ws|exact Hd|discriminate].
Qed.

(** X2: what [clean_text] returns has no white space at either end, all
    its white space is plain spaces, and it is never longer than the
    input. *)
Theorem clean_text_output_shape (x : string) :
  Py.lstrip (clean_text x) = clean_text x
  /\ Py.rstrip (clean_text x) = clean_text x
  /\ plain (clean_text x) = true
  /\ String.length (clean_text x) <= String.length x.
Proof.
  split; [|split; [|split; [apply plain_clean_text|apply length_clean_text]]].
  - unfold clean_text. destruct (Py.truthy x); [|reflexivity].
    apply lstrip_fix, rstrip_starts_clean, lstrip_starts_clean.
  - unfold clean_text. destruct (Py.truthy x); [|reflexivity].
    apply rstrip_rstrip.
Qed.

(** X3: a text of white space only is cleaned to the empty string. *)
Theorem clean_text_blank (x : string) :
  blank x = true -> clean_text x = "".
Proof.
  destruct x as [|c x]; [reflexivity|]. simpl. intros H.
  apply andb_true_iff in H as [Hc Hx].
  unfold clean_text, collapse_ws. cbn [Py.truthy sub_ws]. rewrite Hc.
  rewrite (blank_sub_ws_true _ Hx). reflexivity.
Qed.

Lemma clean_text_blank_witness :
  clean_text (String (ascii_of_nat 9) (String (ascii_of_nat 10) "  ")) = "".
Proof. apply clean_text_blank. reflexivity. Defined.

(** X4: the summary of a text of at most 500 characters has the length of
    the text; that of a longer text has exactly 503 characters, so for a
    text of 501 or 502 characters the summary is longer than the text. *)
Theorem summary_length (text : string) :
  String.length (summary_of text)
  = if Nat.ltb 500 (String.length text) then 503 else String.length text.
Proof.
  unfold summary_of. destruct (Nat.ltb 500 (String.length text)) eqn:E;
    [|reflexivity].
  apply Nat.ltb_lt in E. rewrite length_append, length_take.
  rewrite Nat.min_l by lia. reflexivity.
Qed.

(** ** The extractors *)

Section MoreExtractors.

Lemma filter_nil_Forall {A : Type} (p : A -> bool) (l : list A) :
  Forall (fun a => p a = false) l -> filter p l = [].
Proof.
  induction 1 as [|a l Ha _ IH]; simpl; [reflexivity|]. now rewrite Ha.
Qed.

Lemma named_any_tagged names n : Soup.named_any names n = tagged names n.
Proof.
  destruct n as [s|s|name attrs kids]; unfold Soup.named_any, tagged, Py.mem.
  - induction names; simpl; auto.
  - induction names; simpl; auto.
  - induction names as [|x names IH]; [reflexivity|].
    cbn [existsb]. rewrite IH. reflexivity.
Qed.

Lemma prune_untagged names n :
  Forall (fun m => tagged names m = false)
    (flat_map Soup.elems (Soup.prune names n)).
Proof.
  induction n as [s|s|name attrs kids IH] using Node_induction;
    [constructor|constructor|].
  cbn [Soup.prune]. destruct (Py.mem name names) eqn:E; [constructor|].
  cbn [flat_map Soup.elems]. rewrite app_nil_r. constructor; [exact E|].
  induction IH as [|k kids Hk _ IHkids]; [constructor|].
  cbn [flat_map]. rewrite flat_map_app. apply Forall_app. now split.
Qed.

Lemma prune_fixed names n :
  flat_map (Soup.prune names) (Soup.prune names n) = Soup.prune names n.
Proof.
  induction n as [s|s|name attrs kids IH] using Node_induction;
    [reflexivity|reflexivity|].
  cbn [Soup.prune]. destruct (Py.mem name names) eqn:E; [reflexivity|].
  cbn [flat_map Soup.prune]. rewrite E, app_nil_r. do 2 f_equal.
  induction IH as [|k kids Hk _ IHkids]; [reflexivity|].
  cbn [flat_map]. rewrite flat_map_app. now rewrite Hk, IHkids.
Qed.

Lemma add_image_extends urljoin url l :
  forall acc,
    exists extra,
      fold_left (add_image urljoin url) l acc = (acc ++ extra)%list
      /\ length extra <= length l
      /\ forall i, In i extra ->
           exists img src,
             In img l /\ Soup.get img "src" = Some src
             /\ i = Some (urljoin url src).
Proof.
  induction l as [|img l IH]; intros acc; cbn [fold_left].
  - exists []. rewrite app_nil_r. repeat split; auto. intros i [].
  - destruct (IH (add_image urljoin url acc img))
      as (extra & -> & Hlen & Hin).
    assert (Hrest : forall i, In i extra ->
              exists img' src, In img' (img :: l)
                /\ Soup.get img' "src" = Some src
                /\ i = Some (urljoin url src)).
    { intros i Hi. destruct (Hin i Hi) as (img' & src & H1 & H2 & H3).
      exists img', src. repeat split; auto. now right. }
    unfold add_image. destruct (Soup.get img "src") as [src|] eqn:Esrc.
    + destruct (existsb _ acc).
      * exists extra. repeat split; auto. simpl. lia.
      * exists (Some (urljoin url src) :: extra).
        rewrite <- app_assoc. repeat split; [simpl; lia|].
        intros i [<-|Hi]; [|now apply Hrest].
        exists img, src. repeat split; auto. now left.
    + exists extra. repeat split; auto. simpl. lia.
Qed.

Lemma add_author_In l :
  forall acc a,
    In a (fold_left add_author l acc) <->
    In a acc
    \/ (a <> "" /\ exists elem, In elem l /\ content_or_text elem = a).
Proof.
  induction l as [|e l IH]; intros acc a; cbn [fold_left].
  - split; [auto|]. intros [H|(_ & elem & [] & _)]. exact H.
  - rewrite IH. unfold add_author.
    destruct (Py.truthy (content_or_text e)) eqn:Et; cbn [andb].
    + destruct (Py.mem (content_or_text e) acc) eqn:Em; cbn [negb].
      * split.
        -- intros [H|(Hne & elem & Hl & He)]; [now left|].
           right. split; [exact Hne|]. exists elem. split; [now right|exact He].
        -- intros [H|(Hne & elem & [<-|Hl] & He)]; [now left| |].
           ++ left. subst a. unfold Py.mem in Em.
              apply existsb_exists in Em as (x & Hx & Hxe).
              apply String.eqb_eq in Hxe. now subst x.
           ++ right. split; [exact Hne|]. now exists elem.
      * rewrite in_app_iff. split.
        -- intros [[H|[<-|[]]]|(Hne & elem & Hl & He)].
           ++ now left.
           ++ right. split; [intros H; rewrite H in Et; discriminate|].
              exists e. split; [now left|reflexivity].
           ++ right. split; [exact Hne|]. exists elem.
              split; [now right|exact He].
        -- intros [H|(Hne & elem & [<-|Hl] & He)].
           ++ left. now left.
           ++ left. right. left. exact He.
           ++ right. split; [exact Hne|]. now exists elem.
    + split.
      * intros [H|(Hne & elem & Hl & He)]; [now left|].
        right. split; [exact Hne|]. exists elem. split; [now right|exact He].
      * intros [H|(Hne & elem & [<-|Hl] & He)]; [now left| |].
        -- exfalso. subst a. destruct (content_or_text e); [now apply Hne|].
           discriminate Et.
        -- right. split; [exact Hne|]. now exists elem.
Qed.

Lemma length_split_on d s :
  length (Py.split_on d s) = S (count_char d s).
Proof.
  induction s as [|c s IH]; [reflexivity|]. cbn [Py.split_on count_char].
  destruct (Ascii.eqb c d); cbn [length]; [now rewrite IH|].
  destruct (Py.split_on d s); [discriminate|]. simpl in *. lia.
Qed.

End MoreExtractors.

(** X5: once the noise tags have been decomposed no element with one of
    those names is left in the document, and decomposing again changes
    nothing. *)
Theorem decompose_removes_every_tag (names : list string) (doc : list Node) :
  Soup.find_all (Soup.decompose names doc) (Soup.named_any names) = []
  /\ Soup.decompose names (Soup.decompose names doc)
     = Soup.decompose names doc.
Proof.
  unfold Soup.find_all, Soup.all, Soup.decompose. split.
  - apply filter_nil_Forall.
    induction doc as [|n doc IH]; [constructor|].
    cbn [flat_map]. rewrite flat_map_app. apply Forall_app. split; [|exact IH].
    eapply Forall_impl; [|apply (prune_untagged names n)].
    intros m Hm. now rewrite named_any_tagged.
  - induction doc as [|n doc IH]; [reflexivity|].
    cbn [flat_map]. rewrite flat_map_app. now rewrite prune_fixed, IH.
Qed.

(** X6: [extract_tables] gives no table without a row and no row without a
    cell, and not more tables than the document has [table] elements. *)
Theorem extract_tables_nonempty (soup : list Node) :
  Forall (fun table => table <> [] /\ Forall (fun row => row <> []) table)
    (extract_tables soup)
  /\ length (extract_tables soup)
     <= length (Soup.find_all soup (Soup.named "table")).
Proof.
  unfold extract_tables. split.
  - apply Forall_forall. intros table Hin.
    apply filter_In in Hin as [Hin Hne]. split.
    + destruct table; [discriminate|discriminate].
    + apply in_map_iff in Hin as (t & <- & _). unfold table_rows.
      apply Forall_forall. intros row Hrow.
      apply filter_In in Hrow as [_ Hr]. destruct row; discriminate.
  - etransitivity; [apply filter_length_le|]. now rewrite length_map.
Qed.

(** X7: the metadata hold at most eleven images, ten when there is no
    [og:image] meta; when there is one its content comes first, and so is
    the top image; every other entry is [urljoin] of the page URL and the
    [src] of an [img] element of the document. *)
Theorem images_bounded_and_resolved (L : Libs) (soup : list Node)
  (url : string) :
  let og := Soup.find soup (fun n => Soup.named "meta" n
                                     && Soup.attr_is "property" "og:image" n) in
  let imgs := Soup.find_all soup (fun n => Soup.named "img" n
                                           && Soup.attr_present "src" n) in
  exists extra,
    images (extract_metadata L soup url)
    = (match og with
       | Some og_image => [Soup.get og_image "content"]
       | None => []
       end ++ extra)%list
    /\ length extra <= 10
    /\ forall i, In i extra ->
         exists img src,
           In img imgs /\ Soup.get img "src" = Some src
           /\ i = Some (urljoin L url src).
Proof.
  cbv zeta. cbn [images extract_metadata]. unfold extract_images.
  match goal with |- context [fold_left _ ?l ?acc] =>
    destruct (add_image_extends (urljoin L) url l acc)
      as (extra & -> & Hlen & Hin)
  end.
  exists extra. split; [reflexivity|]. split.
  - etransitivity; [exact Hlen|]. apply firstn_le_length.
  - intros i Hi. destruct (Hin i Hi) as (img & src & H1 & H2 & H3).
    exists img, src. repeat split; auto.
    rewrite <- (firstn_skipn 10). apply in_or_app. left. exact H1.
Qed.

(** X8: a string is among the authors exactly when it is not empty and is
    the content attribute, or else the stripped text, of an element that
    one of the seven author selectors matches. *)
Theorem authors_sound_and_complete (L : Libs) (soup : list Node)
  (url a : string) :
  In a (authors (extract_metadata L soup url)) <->
  a <> ""
  /\ exists sel elem,
       In sel author_selectors /\ In elem (Soup.find_all soup sel)
       /\ content_or_text elem = a.
Proof.
  cbn [authors extract_metadata]. unfold extract_authors.
  rewrite add_author_In. split.
  - intros [[]|(Hne & elem & Hin & He)]. split; [exact Hne|].
    apply in_flat_map in Hin as (sel & Hsel & Hin). now exists sel, elem.
  - intros (Hne & sel & elem & Hsel & Hin & He). right.
    split; [exact Hne|]. exists elem. split; [|exact He].
    apply in_flat_map. now exists sel.
Qed.

(** X9: when the document has a [keywords] meta, there is one keyword more
    than its content has commas, so never none, and an empty content
    gives one empty keyword; every keyword is stripped. *)
Theorem keywords_count_and_shape (L : Libs) (soup : list Node) (url : string)
  (keywords_meta : Node) :
  Soup.find soup (fun n => Soup.named "meta" n
                           && Soup.attr_is "name" "keywords" n)
  = Some keywords_meta ->
  let c := match Soup.get keywords_meta "content" with
           | Some c => c
           | None => ""
           end in
  length (keywords (extract_metadata L soup url)) = S (count_char "," c)
  /\ Forall (fun k => Py.strip k = k) (keywords (extract_metadata L soup url)).
Proof.
  intros Hfind. cbv zeta. cbn [keywords extract_metadata].
  unfold extract_keywords. rewrite Hfind. split.
  - now rewrite length_map, length_split_on.
  - apply Forall_forall. intros k Hk.
    apply in_map_iff in Hk as (x & <- & _). apply strip_fix.
Qed.

Lemma keywords_count_and_shape_witness :
  length (keywords (extract_metadata Examples.offline Examples.keywords_twice
                      Examples.page_url)) = 2.
Proof.
  exact (proj1 (keywords_count_and_shape Examples.offline
                  Examples.keywords_twice Examples.page_url _ eq_refl)).
Defined.

(** ** The fetch with retries and the browser session *)

Ltac step_by solver :=
  lazymatch goal with
  | |- triple _ (bind (emit _) _) _ =>
      eapply triple_bind; [apply triple_emit; solver | intros ? _]
  | |- triple _ (bind (call _ _ _) _) _ =>
      eapply triple_bind; [apply triple_call; solver | intros ? _]
  | |- triple _ (bind (lift _) _) _ =>
      eapply triple_bind; [apply triple_lift | intros ? _]
  | |- triple _ (bind (ask _) _) _ =>
      eapply triple_bind; [apply triple_ask | intros ? _]
  | |- triple _ (bind (if ?c then _ else _) _) _ =>
      eapply triple_bind with (Q1 := fun _ => True);
      [destruct c; [apply triple_ret; exact I | apply triple_emit; solver]
      | intros ? _]
  | |- triple _ (ret _) _ => apply triple_ret; exact I
  | |- triple _ (if ?c then _ else _) _ => destruct c
  | |- triple _ (match ?x with _ => _ end) _ => destruct x
  end.

(** X10: the fetch of the BeautifulSoup strategy makes between one and
    [left + 1] requests with a sleep between any two and nothing else; a
    response it returns is the answer to its last request and has no status
    from 400 to 599; it raises only after all [left + 1] requests have
    failed. *)
Theorem fetch_with_retries_bounded (L : Libs) (url : string) (left : nat)
  (tr : Trace) (r : Exc Response) (tr' : Trace) :
  fetch_with_retries L url left tr = (r, tr') ->
  exists j,
    j <= left
    /\ tr' = (attempts_trace url j ++ tr)%list
    /\ match r with
       | inr response =>
           error_status response = false
           /\ requests_get L (tl tr') url = inr response
       | inl _ => j = left
       end.
Proof. apply fetch_with_retries_outcome. Qed.

Lemma fetch_with_retries_bounded_witness :
  exists j,
    j <= 2
    /\ snd (fetch_with_retries Examples.error_page Examples.page_url 2 [])
       = attempts_trace Examples.page_url j.
Proof.
  destruct (fetch_with_retries Examples.error_page Examples.page_url 2 [])
    as [r tr'] eqn:E.
  destruct (fetch_with_retries_bounded _ _ _ _ _ _ E) as (j & Hj & -> & _).
  exists j. split; [exact Hj|]. simpl. now rewrite app_nil_r.
Defined.

(** What a result of the BeautifulSoup strategy is built from. *)
Lemma beautifulsoup_outcome (L : Libs) (url : string)
  (tr : Trace) (r : Dict) (tr' : Trace) :
  scrape_with_beautifulsoup L url tr = (Some r, tr') ->
  exists j response text,
    j <= 2
    /\ tr' = (attempts_trace url j ++ Info (attempt_line 3 url) :: tr)%list
    /\ requests_get L (tl tr') url = inr response
    /\ error_status response = false
    /\ 50 < String.length text
    /\ let soup :=
         Soup.decompose
           ["script"; "style"; "nav"; "footer"; "header"; "aside"; "iframe";
            "noscript"]
           (html_parser L response.(content)) in
       r = beautifulsoup_result url text (extract_metadata L soup url)
             (extract_tables soup).
Proof.
  unfold scrape_with_beautifulsoup, guarded. rewrite bind_emit.
  unfold bind at 1.
  destruct (fetch_with_retries L url 2 _) as [[e|response] tr1] eqn:E;
    [discriminate|].
  apply fetch_with_retries_outcome in E as (j & Hj & -> & Hst & Hget).
  unfold bind, lift.
  destruct (BeautifulSoup L (content response)) as [e|parsed] eqn:Ep;
    [discriminate|].
  apply BeautifulSoup_value in Ep. subst parsed. cbv zeta.
  destruct (extract_metadata_call L _ url) as [e|metadata] eqn:Em;
    [discriminate|].
  apply extract_metadata_call_value in Em. subst metadata.
  match goal with |- context [if ?c then _ else _] => destruct c eqn:Ec end;
    [|discriminate].
  unfold ret. intros [= <- <-].
  apply andb_true_iff in Ec as [_ Ec]. apply Nat.ltb_lt in Ec.
  eexists j, response, _. repeat split; try eassumption.
Qed.

(** X11: a result of the BeautifulSoup strategy is always built from a
    response that [requests.get] gave to one of at most three requests and
    whose status is not from 400 to 599: from the metadata and the tables
    of its body with the noise tags removed, and a text of more than 50
    characters. *)
Theorem beautifulsoup_result_from_good_response (L : Libs) (url : string)
  (tr : Trace) (r : Dict) (tr' : Trace) :
  scrape_with_beautifulsoup L url tr = (Some r, tr') ->
  exists j response text,
    j <= 2
    /\ tr' = (attempts_trace url j ++ Info (attempt_line 3 url) :: tr)%list
    /\ requests_get L (tl tr') url = inr response
    /\ error_status response = false
    /\ 50 < String.length text
    /\ let soup :=
         Soup.decompose
           ["script"; "style"; "nav"; "footer"; "header"; "aside"; "iframe";
            "noscript"]
           (html_parser L response.(content)) in
       r = beautifulsoup_result url text (extract_metadata L soup url)
             (extract_tables soup).
Proof. apply beautifulsoup_outcome. Qed.

Lemma beautifulsoup_result_from_good_response_witness :
  exists response tr0,
    requests_get Examples.both_succeed tr0 Examples.page_url = inr response
    /\ error_status response = false.
Proof.
  destruct (scrape_with_beautifulsoup Examples.both_succeed Examples.page_url [])
    as [[r|] tr'] eqn:E; [|vm_compute in E; discriminate E].
  destruct (beautifulsoup_result_from_good_response _ _ _ _ _ E)
    as (j & response & text & _ & _ & Hget & Hst & _).
  exists response, (tl tr'). split; [exact Hget|exact Hst].
Defined.

(** X12: the Selenium strategy quits the browser exactly once, after
    everything it did with it, whenever Chrome has started, whether it
    returns a result, rejects the page or fails; when Chrome does not start
    there is nothing to quit and the strategy returns nothing. *)
Theorem selenium_driver_released (L : Libs) (url : string) (tr : Trace)
  (r : option Dict) (tr' : Trace) :
  scrape_with_selenium L url tr = (r, tr') ->
  let tr0 := Info (attempt_line 4 url) :: tr in
  match selenium_start L tr0 with
  | inl e => r = None /\ tr' = Warning ("Selenium failed: " ++ e) :: tr0
  | inr _ =>
      exists es,
        Forall (fun e => e <> Quit) es
        /\ (tr' = Quit :: (es ++ tr0)%list
            \/ exists msg,
                 r = None
                 /\ tr' = Warning msg :: Quit :: (es ++ tr0)%list)
  end.
Proof.
  unfold scrape_with_selenium, guarded. rewrite bind_emit.
  unfold with_driver. intros H. cbv zeta.
  pose (tr0 := Info (attempt_line 4 url) :: tr).
  change (Info ("Attempting scrape with Selenium: " ++ url) :: tr)
    with tr0 in H.
  change (Info (attempt_line 4 url) :: tr) with tr0.
  destruct (selenium_start L tr0) as [e|[]].
  - injection H as <- <-. split; reflexivity.
  - match type of H with context [bind ?m ?f tr0] =>
      assert (Ht : triple (fun e => e <> Quit) (bind m f) (fun _ => True));
      [|destruct (bind m f tr0) as [r1 tr1] eqn:E]
    end.
    { do 8 (step_by ltac:(discriminate)). cbv zeta.
      step_by ltac:(discriminate). cbv zeta.
      step_by ltac:(discriminate); step_by ltac:(discriminate). }
    destruct (Ht _ _ _ E) as [(es & -> & Hes) _]. exists es.
    split; [exact Hes|].
    destruct r1 as [msg|r1]; injection H as <- <-; [right|left; reflexivity].
    eexists. split; reflexivity.
Qed.

Lemma selenium_driver_released_witness :
  snd (scrape_with_selenium Examples.offline Examples.page_url [])
  = [Warning "Selenium failed: WebDriverException";
     Info (attempt_line 4 Examples.page_url)].
Proof.
  destruct (scrape_with_selenium Examples.offline Examples.page_url [])
    as [r tr'] eqn:E.
  exact (proj2 (selenium_driver_released _ _ _ _ _ E)).
Defined.

(** ** The orchestrator and the handler *)

Section MoreHandler.

Variable L : Libs.

Lemma get_set_same d k v : D.get (D.set d k v) k = Some v.
Proof.
  induction d as [|[k' v'] d IH]; cbn [D.set D.get].
  - now rewrite String.eqb_refl.
  - destruct (String.eqb k' k) eqn:E; cbn [D.get]; rewrite ?String.eqb_refl;
      [reflexivity|]. now rewrite E.
Qed.

Lemma get_set_other d k v k' : k' <> k -> D.get (D.set d k v) k' = D.get d k'.
Proof.
  intros Hne. induction d as [|[k0 v0] d IH]; cbn [D.set D.get].
  - destruct (String.eqb k k') eqn:E; [|reflexivity].
    apply String.eqb_eq in E. congruence.
  - destruct (String.eqb k0 k) eqn:E; cbn [D.get].
    + apply String.eqb_eq in E. subst k0.
      destruct (String.eqb k k') eqn:E'; [|reflexivity].
      apply String.eqb_eq in E'. congruence.
    + now rewrite IH.
Qed.

Lemma forallb_set (p : string * PyVal -> bool) d k v :
  forallb p d = true -> p (k, v) = true -> forallb p (D.set d k v) = true.
Proof.
  intros Hd Hv. induction d as [|[k' v'] d IH]; cbn [D.set forallb].
  - now rewrite Hv.
  - cbn [forallb] in Hd. apply andb_true_iff in Hd as [H1 H2].
    destruct (String.eqb k' k); cbn [forallb]; [now rewrite Hv, H2|].
    now rewrite H1, IH.
Qed.

Lemma serializable_strs l : serializable (D.strs l) = true.
Proof. unfold D.strs. simpl. induction l; simpl; auto. Qed.

Lemma serializable_opt_str o : serializable (D.opt_str o) = true.
Proof. now destruct o. Qed.

Lemma serializable_opt_strs l : serializable (VList (map D.opt_str l)) = true.
Proof.
  simpl. induction l as [|o l IH]; simpl; [reflexivity|].
  now rewrite serializable_opt_str.
Qed.

Lemma serializable_tables (tables : list (list (list string))) :
  serializable (VList (map (fun t => VList (map D.strs t)) tables)) = true.
Proof.
  simpl. induction tables as [|t tables IH]; simpl; [reflexivity|].
  rewrite IH, andb_true_r. induction t as [|row t IHt]; simpl; [reflexivity|].
  change (serializable (D.strs row) && forallb serializable (map D.strs t) = true).
  now rewrite serializable_strs.
Qed.

Lemma serializable_top_image metadata :
  serializable (top_image_of metadata) = true.
Proof.
  unfold top_image_of. destruct (images metadata); [reflexivity|].
  apply serializable_opt_str.
Qed.

(** The results of the strategies after newspaper3k hold no set. *)
Lemma later_results_serializable k url raw d :
  1 <= k -> built_from k url raw d ->
  forallb (fun kv => serializable (snd kv)) d = true.
Proof.
  intros Hk.
  destruct k as [|k]; [lia|].
  do 5 (destruct k as [|k];
        [cbn [built_from]; intros H;
         repeat match goal with
                | H : exists _, _ |- _ => destruct H as [? H]
                end; subst d;
         cbn [forallb snd trafilatura_result readability_result
                beautifulsoup_result selenium_result raw_result];
         rewrite ?serializable_strs, ?serializable_opt_str,
           ?serializable_opt_strs, ?serializable_tables,
           ?serializable_top_image;
         repeat match goal with
                | |- context [match ?x with _ => _ end] => destruct x
                end;
         rewrite ?serializable_strs, ?serializable_opt_str; reflexivity|]).
  intros [].
Qed.

Lemma result_head k url d :
  result_ok k url d ->
  exists rest, d = ("method", VStr (method_name k)) :: rest.
Proof.
  intros (raw & H & _). revert H.
  do 6 (destruct k as [|k];
        [cbn [built_from]; intros H;
         repeat match goal with
                | H : exists _, _ |- _ => destruct H as [? H]
                | H : _ /\ _ |- _ => destruct H as [? H]
                end; subst d; eexists; reflexivity|]).
  intros [].
Qed.

(** The loop over strategies that keep their specification ends with the
    result it started from, with [None], or with a well-built result of
    one of them. *)
Lemma run_strategies_result ss url :
  forall o res0 tr res tr1,
    (forall i s, nth_error ss i = Some s -> strategy_spec (o + i) s) ->
    run_strategies ss url res0 tr = (res, tr1) ->
    (ss = [] /\ res = res0)
    \/ res = None
    \/ exists k d, o <= k < o + length ss /\ res = Some d /\ result_ok k url d.
Proof.
  induction ss as [|s ss IH]; intros o res0 tr res tr1 Hspec;
    cbn [run_strategies].
  - intros [= <- <-]. now left.
  - destruct (s url tr) as [r' tr'] eqn:E.
    destruct (Hspec 0 s eq_refl _ _ _ _ E) as [_ Hok].
    rewrite Nat.add_0_r in Hok.
    assert (Hr' : r' = None
                  \/ exists k d, o <= k < o + length (s :: ss)
                       /\ r' = Some d /\ result_ok k url d).
    { destruct r' as [d|]; [right|now left].
      exists o, d. cbn [length]. split; [lia|]. split; [reflexivity|].
      now apply Hok. }
    destruct (accepted r'); [intros [= <- <-]; right; exact Hr'|].
    intros Hrun. right. apply (IH (S o)) in Hrun.
    + destruct Hrun as [[-> ->]|[->|(k & d & Hk & -> & Hd)]];
        [exact Hr'|now left|].
      right. exists k, d. cbn [length]. split; [lia|]. now split.
    + intros i s' Hi. replace (S o + i) with (o + S i) by lia.
      now apply Hspec.
Qed.

Lemma stamped_serializable d tr0 tr1 :
  forallb (fun kv => serializable (snd kv)) d = true ->
  forallb (fun kv => serializable (snd kv)) (stamped L d tr0 tr1) = true.
Proof.
  intros H. unfold stamped.
  apply forallb_set; [apply forallb_set; [exact H|]|]; reflexivity.
Qed.

Lemma convert_and_return_stamped k url d tr0 tr1 :
  result_ok k url d ->
  convert_and_return (stamped L d tr0 tr1) = jsonify 200 (stamped L d tr0 tr1).
Proof.
  intros H. apply result_head in H as (rest & ->). reflexivity.
Qed.

Lemma as_list_serializable (d : Dict) :
  forallb (fun kv => serializable (snd kv)) d = true ->
  map (fun kv => (fst kv, as_list (snd kv))) d = d.
Proof.
  induction d as [|[k v] d IH]; [reflexivity|]. cbn [forallb map fst snd].
  intros H. apply andb_true_iff in H as [Hv Hd]. rewrite (IH Hd).
  destruct v; try reflexivity. discriminate Hv.
Qed.

(** A dictionary with which the loop ends was returned by one of the
    strategies, in the state in which the loop ends. *)
Lemma run_strategies_winner ss url :
  forall o res0 tr d tr1,
    (forall i s, nth_error ss i = Some s -> strategy_spec (o + i) s) ->
    run_strategies ss url res0 tr = (Some d, tr1) ->
    (ss = [] /\ res0 = Some d)
    \/ exists k s t0, nth_error ss k = Some s /\ s url t0 = (Some d, tr1).
Proof.
  induction ss as [|s ss IH]; intros o res0 tr d tr1 Hspec;
    cbn [run_strategies].
  - intros [= -> <-]. now left.
  - destruct (s url tr) as [r' tr'] eqn:E.
    destruct (Hspec 0 s eq_refl _ _ _ _ E) as [_ Hok].
    destruct (accepted r') eqn:Ea.
    + intros [= -> ->]. right. now exists 0, s, tr.
    + intros Hrun. right. apply (IH (S o)) in Hrun.
      * destruct Hrun as [[_ ->]|(k & s' & t0 & Hk & Hs')].
        -- specialize (Hok d eq_refl). apply result_ok_accepted in Hok.
           congruence.
        -- now exists (S k), s', t0.
      * intros i s' Hi. replace (S o + i) with (o + S i) by lia.
        now apply Hspec.
Qed.

(** The messages of the exceptions that the handler can meet before it
    runs a strategy are not the message of the JSON encoder. *)
Lemma digits_head fuel n acc :
  (exists k rest, k < 10 /\ acc = String (ascii_of_nat (48 + k)) rest) ->
  exists k rest,
    k < 10 /\ Py.digits fuel n acc = String (ascii_of_nat (48 + k)) rest.
Proof.
  revert n acc. induction fuel as [|fuel IH]; intros n acc H; [exact H|].
  cbn [Py.digits].
  assert (H' : exists k rest,
             k < 10
             /\ String (ascii_of_nat (48 + n mod 10)) acc
                = String (ascii_of_nat (48 + k)) rest).
  { exists (n mod 10), acc. split; [|reflexivity].
    apply Nat.mod_upper_bound. discriminate. }
  cbv zeta. destruct (Nat.eqb (n / 10) 0); [exact H'|apply IH, H'].
Qed.

Lemma str_of_exception_other e :
  J.str_of_exception e <> "Object of type set is not JSON serializable".
Proof.
  unfold J.str_of_exception, Py.str_of_nat.
  destruct (digits_head (http_code e) (http_code e / 10)
              (String (ascii_of_nat (48 + http_code e mod 10)) ""))
    as (k & rest & Hk & Hd).
  { exists (http_code e mod 10), "". split; [|reflexivity].
    apply Nat.mod_upper_bound. discriminate. }
  cbn [Py.digits]. cbv zeta.
  assert (Hhead : exists k rest,
             k < 10
             /\ (if Nat.eqb (http_code e / 10) 0
                 then String (ascii_of_nat (48 + http_code e mod 10)) ""
                 else Py.digits (http_code e) (http_code e / 10)
                        (String (ascii_of_nat (48 + http_code e mod 10)) ""))
                = String (ascii_of_nat (48 + k)) rest).
  { destruct (Nat.eqb (http_code e / 10) 0); [|now exists k, rest].
    exists (http_code e mod 10), "". split; [|reflexivity].
    apply Nat.mod_upper_bound. discriminate. }
  destruct Hhead as (k' & rest' & Hk' & ->). cbn [String.append].
  intros [= Hc _].
  do 10 (destruct k' as [|k']; [discriminate Hc|]). lia.
Qed.

Lemma no_attribute_other j attr :
  J.no_attribute j attr <> "Object of type set is not JSON serializable".
Proof. unfold J.no_attribute. cbn [String.append]. discriminate. Qed.

Lemma ue_message_other e :
  ue_message e <> "Object of type set is not JSON serializable".
Proof. apply String.eqb_neq, ue_about_url. Qed.

Lemma read_url_raises req e :
  read_url req = inl e ->
  e <> "Object of type set is not JSON serializable".
Proof.
  destruct req as [args|[exc|data]]; cbn [read_url]; [discriminate| |].
  - intros [= <-]. apply str_of_exception_other.
  - destruct (J.truthy data); [|discriminate].
    destruct data; intros [= <-]; apply no_attribute_other.
Qed.

(** Every way through the handler: an exception before any strategy has
    run, one of the two refusals, or the run of the strategies. *)
Lemma scrape_outcome req tr resp tr' :
  scrape L req tr = (resp, tr') ->
  (exists e,
      e <> "Object of type set is not JSON serializable"
      /\ resp = failed e /\ tr' = Error ("Scraping error: " ++ e) :: tr
      /\ (request_url req = None
          \/ exists url err,
               request_url req = Some url /\ url <> ""
               /\ urlparse_raises L url = Some err /\ e = ue_message err))
  \/ ((request_url req = None \/ request_url req = Some "")
      /\ resp = url_required /\ tr' = tr)
  \/ (exists url,
        request_url req = Some url /\ url <> ""
        /\ urlparse_raises L url = None
        /\ (fst (urlparse L url) = "" \/ snd (urlparse L url) = "")
        /\ resp = invalid_url /\ tr' = tr)
  \/ (exists url res tr1,
        request_url req = Some url /\ url <> ""
        /\ urlparse_raises L url = None
        /\ fst (urlparse L url) <> "" /\ snd (urlparse L url) <> ""
        /\ let tr0 := Info ("Scraping request for: " ++ url) :: tr in
           run_strategies (strategies L) url None tr0 = (res, tr1)
           /\ match res with
              | None => resp = all_failed url /\ tr' = tr1
              | Some d =>
                  exists k,
                    k < 6 /\ result_ok k url d
                    /\ if forallb (fun kv => serializable (snd kv))
                            (stamped L d tr0 tr1)
                       then resp = {| http_status := 200;
                                      body := stamped L d tr0 tr1 |}
                            /\ tr' = Info ("Successfully scraped " ++ url) :: tr1
                       else resp = not_serializable
                            /\ exists e, tr' = Error e
                                 :: Info ("Successfully scraped " ++ url) :: tr1
              end).
Proof.
  unfold scrape, request_url. unfold bind at 1. unfold lift at 1.
  destruct (read_url req) as [e|j] eqn:Eread.
  { intros [= <- <-]. left. exists e.
    split; [exact (read_url_raises _ _ Eread)|]. repeat split. now left. }
  destruct (J.truthy j) eqn:Etrue; cbn [negb].
  2:{ intros [= <- <-]. right. left. split; [|split; reflexivity].
      destruct j; auto. destruct s; [now right|discriminate Etrue]. }
  destruct j as [|b|n|z|url|items|fields];
    try (intros [= <- <-]; left; eexists;
         split; [apply no_attribute_other|]; repeat split; now left).
  assert (Hne : url <> "") by (intros ->; discriminate Etrue).
  unfold bind at 1. unfold lift, urlparse_call.
  destruct (urlparse_raises L url) as [err|] eqn:Eraise.
  { intros [= <- <-]. left. exists (ue_message err).
    split; [apply ue_message_other|]. repeat split. right.
    exists url, err. auto. }
  destruct (urlparse L url) as [scheme netloc] eqn:Eparse.
  destruct scheme as [|c1 scheme];
    [intros [= <- <-]; right; right; left; exists url;
     rewrite Eparse; repeat split; auto|].
  destruct netloc as [|c2 netloc];
    [intros [= <- <-]; right; right; left; exists url;
     rewrite Eparse; repeat split; auto|].
  cbn [Py.truthy negb orb]. rewrite bind_emit.
  destruct (run_strategies (strategies L) url None _)
    as [res tr1] eqn:Erun.
  intros H. right. right. right. exists url, res, tr1.
  rewrite Eparse. split; [reflexivity|]. split; [exact Hne|].
  split; [exact Eraise|].
  split; [discriminate|]. split; [discriminate|]. cbv zeta.
  split; [exact Erun|].
  destruct (run_strategies_result _ _ 0 _ _ _ _
              (fun i s Hi => strategies_spec L i s Hi) Erun)
    as [[Hnil _]|[->|(k & d & Hk & -> & Hd)]]; [discriminate Hnil| |].
  - injection H as <- <-. split; reflexivity.
  - exists k. split; [exact (proj2 Hk)|]. split; [exact Hd|].
    destruct (result_head _ _ _ Hd) as (rest & ->).
    fold (stamped L (("method", VStr (method_name k)) :: rest)
            (Info ("Scraping request for: " ++ url) :: tr) tr1) in H.
    rewrite bind_emit in H.
    rewrite (convert_and_return_stamped k url) in H by exact Hd.
    unfold jsonify in H.
    destruct (forallb _ (stamped L _ _ tr1)).
    + injection H as <- <-. split; reflexivity.
    + injection H as <- <-. split; [reflexivity|]. eexists. reflexivity.
Qed.

End MoreHandler.

Section MoreOrchestrator.

Variable L : Libs.

Lemma extends_In (P : Event -> Prop) tr tr' e :
  extends P tr tr' -> In e tr -> In e tr'.
Proof. intros (es & -> & _) H. apply in_or_app. now right. Qed.

(** A loop that ends without an accepted result has tried every
    strategy. *)
Lemma run_strategies_exhausted ss url :
  forall o res0 tr res tr1,
    (forall i s, nth_error ss i = Some s -> strategy_spec (o + i) s) ->
    run_strategies ss url res0 tr = (res, tr1) ->
    accepted res = false ->
    forall i, i < length ss -> In (Info (attempt_line (o + i) url)) tr1.
Proof.
  induction ss as [|s ss IH]; intros o res0 tr res tr1 Hspec;
    cbn [run_strategies length]; [intros _ _ i Hi; lia|].
  destruct (s url tr) as [r' tr'] eqn:E.
  destruct (Hspec 0 s eq_refl _ _ _ _ E) as [(es & -> & _) _].
  rewrite Nat.add_0_r.
  assert (Hspec' : forall i s', nth_error ss i = Some s' ->
                     strategy_spec (S o + i) s').
  { intros i s' Hi. replace (S o + i) with (o + S i) by lia. now apply Hspec. }
  destruct (accepted r') eqn:Ea; [intros [= <- <-]; congruence|].
  intros Hrun Hrej [|i] Hi.
  - rewrite Nat.add_0_r.
    eapply extends_In;
      [exact (run_strategies_extends _ _ (S o) _ _ _ _ Hspec' Hrun)|].
    right. apply in_or_app. right. now left.
  - replace (o + S i) with (S o + i) by lia.
    eapply (IH (S o)); eauto. lia.
Qed.

Lemma run_strategies_cons (s : Strategy) rest url res0 tr :
  run_strategies (s :: rest) url res0 tr
  = let (r', tr') := s url tr in
    if accepted r' then (r', tr')
    else run_strategies rest url r' (Sleep "between attempts" :: tr').
Proof. reflexivity. Qed.

End MoreOrchestrator.

(** X13: the loop over the six strategies ends either with [None], and
    then each of the six has logged its attempt, or with a dictionary that
    one of the six has built and that carries a true success flag; it
    never ends with a dictionary that fails the success test. *)
Theorem loop_ends_none_or_accepted (L : Libs) (url : string) (tr : Trace)
  (res : option Dict) (tr1 : Trace) :
  run_strategies (strategies L) url None tr = (res, tr1) ->
  (res = None /\ forall j, j < 6 -> In (Info (attempt_line j url)) tr1)
  \/ exists k d raw,
       k < 6 /\ res = Some d /\ built_from k url raw d
       /\ accepted (Some d) = true.
Proof.
  intros Hrun.
  destruct (run_strategies_result _ _ 0 _ _ _ _
              (fun i s Hi => strategies_spec L i s Hi) Hrun)
    as [[Hnil _]|[->|(k & d & Hk & -> & Hd)]]; [discriminate Hnil| |].
  - left. split; [reflexivity|]. intros j Hj.
    exact (run_strategies_exhausted _ _ 0 _ _ _ _
             (fun i s Hi => strategies_spec L i s Hi) Hrun eq_refl j Hj).
  - right. pose proof (result_ok_accepted _ _ _ Hd) as Ha.
    destruct Hd as (raw & Hb & _). exists k, d, raw.
    split; [exact (proj2 Hk)|]. now repeat split.
Qed.

Lemma loop_ends_none_or_accepted_witness :
  In (Info (attempt_line 5 Examples.page_url))
    (snd (run_strategies (strategies Examples.offline) Examples.page_url
            None [])).
Proof.
  destruct (run_strategies (strategies Examples.offline) Examples.page_url
              None []) as [res tr1] eqn:E.
  destruct (loop_ends_none_or_accepted _ _ _ _ _ E)
    as [[_ H]|(k & d & raw & _ & Hres & _)]; [apply H; lia|].
  exfalso. vm_compute in E. rewrite Hres in E. discriminate E.
Defined.

(** X14: every answer of the handler has status 200, 400 or 500 and a
    [success] field, which is true exactly with status 200. *)
Theorem response_status_and_flag (L : Libs) (req : Request) (tr : Trace) :
  let resp := fst (scrape L req tr) in
  (http_status resp = 200%Z
   /\ D.get (body resp) "success" = Some (VBool true))
  \/ ((http_status resp = 400%Z \/ http_status resp = 500%Z)
      /\ D.get (body resp) "success" = Some (VBool false)).
Proof.
  cbv zeta. destruct (scrape L req tr) as [resp tr'] eqn:E. cbn [fst].
  apply scrape_outcome in E
    as [(e & _ & -> & _)
       |[(_ & -> & _)|[(url & _ & _ & _ & _ & -> & _)
                      |(url & res & tr1 & _ & _ & _ & _ & _ & Hrun & Hres)]]];
    [right; split; [now right|reflexivity]
    |right; split; [now left|reflexivity]
    |right; split; [now left|reflexivity]|].
  destruct res as [d|].
  - destruct Hres as (k & Hk & Hd & Hres).
    destruct (forallb _ _); destruct Hres as [-> _];
      [left|right; split; [now right|reflexivity]].
    split; [reflexivity|]. cbn [body]. unfold stamped.
    rewrite !get_set_other by discriminate.
    destruct Hd as (raw & Hb & _). now apply built_from_fields in Hb.
  - destruct Hres as [-> _]. right. split; [now right|reflexivity].
Qed.

(** X15: an answer with status 200 carries the dictionary that the loop
    over the six strategies ended with, the one that the winning strategy
    returned for the requested URL, with [scrape_time] (the clock after the
    loop minus the clock before it) and [timestamp] set on it: the keys
    stand in the strategy's order and every value is the strategy's, where
    a set would stand as the list of its elements; no value of the body
    holds a set, and the success is logged after the events of the loop. *)
Theorem success_body_is_stamped_result (L : Libs) (req : Request) (tr : Trace)
  (resp : HttpResponse) (tr' : Trace) :
  scrape L req tr = (resp, tr') ->
  http_status resp = 200%Z ->
  exists url k s t0 d t1,
    let tr0 := Info ("Scraping request for: " ++ url) :: tr in
    request_url req = Some url
    /\ nth_error (strategies L) k = Some s
    /\ s url t0 = (Some d, t1)
    /\ run_strategies (strategies L) url None tr0 = (Some d, t1)
    /\ tr' = Info ("Successfully scraped " ++ url) :: t1
    /\ body resp
       = map (fun kv => (fst kv, as_list (snd kv))) (stamped L d tr0 t1)
    /\ D.get (body resp) "scrape_time"
       = Some (VNum (time_time L t1 - time_time L tr0))
    /\ D.get (body resp) "timestamp" = Some (VStr (utcnow_isoformat L t1))
    /\ forallb (fun kv => serializable (snd kv)) (body resp) = true.
Proof.
  intros E Hst. apply scrape_outcome in E
    as [(e & _ & -> & _)
       |[(_ & -> & _)|[(url & _ & _ & _ & _ & -> & _)
                      |(url & res & tr1 & Hreq & _ & _ & _ & _ & Hrun & Hres)]]];
    [discriminate Hst|discriminate Hst|discriminate Hst|].
  destruct res as [d|]; [|destruct Hres as [-> _]; discriminate Hst].
  destruct Hres as (k & Hk & Hd & Hres).
  destruct (forallb _ _) eqn:Eser;
    [destruct Hres as [-> ->]|destruct Hres as [-> _]; discriminate Hst].
  destruct (run_strategies_winner _ _ 0 _ _ _ _
              (fun i s Hi => strategies_spec L i s Hi) Hrun)
    as [[Hnil _]|(k' & s & t0 & Hs & Hret)]; [discriminate Hnil|].
  exists url, k', s, t0, d, tr1. cbv zeta. cbn [body].
  split; [exact Hreq|]. split; [exact Hs|]. split; [exact Hret|].
  split; [exact Hrun|]. split; [reflexivity|].
  split; [symmetry; apply as_list_serializable, Eser|].
  unfold stamped in *. split.
  - rewrite get_set_other by discriminate. apply get_set_same.
  - split; [apply get_set_same|exact Eser].
Qed.

Lemma success_body_is_stamped_result_witness :
  exists k s t0 d t1,
    nth_error (strategies Examples.both_succeed) k = Some s
    /\ s Examples.page_url t0 = (Some d, t1)
    /\ D.get (body (fst (scrape Examples.both_succeed
                           (GET [("url", Examples.page_url)]) [])))
         "scrape_time" = Some (VNum 2).
Proof.
  destruct (scrape Examples.both_succeed (GET [("url", Examples.page_url)]) [])
    as [resp tr'] eqn:E.
  assert (Hst : http_status resp = 200%Z)
    by (vm_compute in E; injection E as <- _; reflexivity).
  destruct (success_body_is_stamped_result _ _ _ _ _ E Hst)
    as (url & k & s & t0 & d & t1 & Hreq & Hk & Hs & Hrun & _ & _ & Ht & _).
  injection Hreq as <-.
  exists k, s, t0, d, t1. split; [exact Hk|]. split; [exact Hs|]. cbn [fst].
  rewrite Ht. vm_compute in Hrun. injection Hrun as _ <-. reflexivity.
Defined.

(** X16: a request without a usable [url] is answered with 400 and "URL
    parameter is required", and nothing is logged and no strategy runs: a
    GET without the argument or with an empty one, a POST whose JSON body
    is a false value ([null], [false], [0], an empty string, list or
    object), and a POST whose object has no [url] or a false value there.
    A POST on which [get_json] raises is answered with 500 and the text of
    the HTTP exception, which is logged as an error. *)
Theorem missing_url_rejected (L : Libs) (tr : Trace) :
  (forall args,
      Soup.lookup args "url" = None \/ Soup.lookup args "url" = Some "" ->
      scrape L (GET args) tr = (url_required, tr))
  /\ (forall data,
        J.truthy data = false ->
        scrape L (POST (inr data)) tr = (url_required, tr))
  /\ (forall fields,
        J.truthy (J.get fields "url") = false ->
        scrape L (POST (inr (JObj fields))) tr = (url_required, tr))
  /\ (forall e,
        scrape L (POST (inl e)) tr
        = (failed (J.str_of_exception e),
           Error ("Scraping error: " ++ J.str_of_exception e) :: tr)).
Proof.
  split; [|split; [|split]].
  - intros args H. unfold scrape, bind, lift. cbn [read_url].
    destruct H as [-> | ->]; reflexivity.
  - intros data H. unfold scrape, bind, lift. cbn [read_url].
    rewrite H. reflexivity.
  - intros fields H. unfold scrape, bind, lift. cbn [read_url].
    destruct (J.truthy (JObj fields)); [|reflexivity]. rewrite H. reflexivity.
  - intros e. reflexivity.
Qed.

Lemma missing_url_rejected_witness :
  scrape Examples.offline (GET [("page", "3")]) [] = (url_required, [])
  /\ scrape Examples.offline (POST (inr (JObj [("url", JNull)]))) []
     = (url_required, []).
Proof.
  split.
  - apply (proj1 (missing_url_rejected Examples.offline [])).
    left. reflexivity.
  - apply (proj1 (proj2 (proj2 (missing_url_rejected Examples.offline [])))).
    reflexivity.
Defined.

(** X21: a POST whose JSON body is a true value other than an object (a
    number, a string, a list) and a POST whose [url] is a true value other
    than a string are answered with 500 and the message of the attribute
    error that [data.get] or [urlparse] raises; the error is logged and no
    strategy runs. *)
Theorem wrong_json_type_is_server_error (L : Libs) (tr : Trace) :
  (forall data,
      J.truthy data = true -> (forall fields, data <> JObj fields) ->
      scrape L (POST (inr data)) tr
      = (failed (J.no_attribute data "get"),
         Error ("Scraping error: " ++ J.no_attribute data "get") :: tr))
  /\ (forall fields,
        J.truthy (J.get fields "url") = true ->
        (forall url, J.get fields "url" <> JStr url) ->
        scrape L (POST (inr (JObj fields))) tr
        = (failed (J.no_attribute (J.get fields "url") "decode"),
           Error ("Scraping error: "
                  ++ J.no_attribute (J.get fields "url") "decode") :: tr)).
Proof.
  split.
  - intros data Ht Hobj. unfold scrape, bind, lift. cbn [read_url].
    rewrite Ht. destruct data; try reflexivity. now destruct (Hobj fields).
  - intros fields Ht Hstr. unfold scrape, bind, lift. cbn [read_url].
    assert (Hfields : J.truthy (JObj fields) = true).
    { destruct fields; [discriminate Ht|reflexivity]. }
    rewrite Hfields, Ht. cbn [negb].
    destruct (J.get fields "url"); try reflexivity. now destruct (Hstr s).
Qed.

Lemma wrong_json_type_is_server_error_witness :
  scrape Examples.offline (POST (inr (JArr [JStr Examples.page_url]))) []
  = (failed "'list' object has no attribute 'get'",
     [Error "Scraping error: 'list' object has no attribute 'get'"])
  /\ scrape Examples.offline (POST (inr (JObj [("url", JInt 5)]))) []
     = (failed "'int' object has no attribute 'decode'",
        [Error "Scraping error: 'int' object has no attribute 'decode'"]).
Proof.
  split.
  - apply (proj1 (wrong_json_type_is_server_error Examples.offline []));
      [reflexivity|discriminate].
  - apply (proj2 (wrong_json_type_is_server_error Examples.offline [])
             [("url", JInt 5)]); [reflexivity|discriminate].
Defined.

(** X17: the handler answers 500 with the JSON encoding error only when
    newspaper3k, the first strategy, has returned the result, with images
    that hold a set; the results of the other five strategies always
    encode. *)
Theorem encoding_error_only_from_newspaper (L : Libs) (req : Request)
  (tr : Trace) (tr' : Trace) :
  scrape L req tr = (not_serializable, tr') ->
  exists url article tr1,
    request_url req = Some url
    /\ scrape_with_newspaper L url
         (Info ("Scraping request for: " ++ url) :: tr)
       = (Some (newspaper_result url article), tr1)
    /\ serializable (a_images article) = false.
Proof.
  intros E. apply scrape_outcome in E
    as [(e & Hne & [= <-] & _)
       |[(_ & [=] & _)|[(url & _ & _ & _ & _ & [=] & _)
                       |(url & res & tr1 & Hreq & _ & _ & _ & _ & Hrun & Hres)]]];
    [now destruct Hne|].
  destruct res as [d|]; [|destruct Hres as [[=] _]].
  destruct Hres as (k & Hk & Hd & Hres).
  destruct (forallb _ _) eqn:Eser; [destruct Hres as [[=] _]|]. clear Hres.
  destruct k as [|k].
  - destruct Hd as (raw & (article & _ & ->) & _).
    exists url, article.
    change (strategies L)
      with (scrape_with_newspaper L :: tl (strategies L)) in Hrun.
    rewrite run_strategies_cons in Hrun.
    destruct (scrape_with_newspaper L url _) as [r' tr2] eqn:Enp.
    destruct (accepted r') eqn:Ea.
    + injection Hrun as -> ->. exists tr1. split; [exact Hreq|].
      split; [reflexivity|].
      destruct (serializable (a_images article)) eqn:Ei; [|reflexivity].
      exfalso. rewrite stamped_serializable in Eser; [discriminate|].
      cbn [forallb snd newspaper_result]. rewrite Ei.
      now rewrite ?serializable_strs, ?serializable_opt_str.
    + exfalso.
      destruct (run_strategies_result _ _ 1 _ _ _ _
                  (fun i s Hi => strategies_spec L (S i) s Hi) Hrun)
        as [[Hnil _]|[[=]|(k & d & Hk' & [= <-] & Hd')]]; [discriminate Hnil|].
      destruct Hd' as (raw' & Hb' & _).
      apply built_from_fields in Hb' as (Hm & _). cbn [length] in Hk'.
      change (D.get (newspaper_result url article) "method")
        with (Some (VStr "newspaper3k")) in Hm.
      destruct k as [|k]; [lia|].
      do 5 (destruct k as [|k]; [discriminate Hm|]). lia.
  - exfalso. destruct Hd as (raw & Hb & _).
    pose proof (later_results_serializable (S k) url raw d ltac:(lia) Hb) as Hs.
    rewrite stamped_serializable in Eser; [discriminate|exact Hs].
Qed.

Lemma encoding_error_only_from_newspaper_witness :
  exists article,
    serializable (a_images article) = false
    /\ fst (scrape_with_newspaper Examples.images_as_set Examples.page_url
              [Info ("Scraping request for: " ++ Examples.page_url)])
       = Some (newspaper_result Examples.page_url article).
Proof.
  destruct (scrape Examples.images_as_set (GET [("url", Examples.page_url)]) [])
    as [resp tr'] eqn:E.
  assert (Hr : resp = not_serializable)
    by (vm_compute in E; injection E as <- _; reflexivity).
  subst resp.
  destruct (encoding_error_only_from_newspaper _ _ _ _ E)
    as (url & article & tr1 & Hreq & Hnp & Hser).
  injection Hreq as <-. exists article. split; [exact Hser|].
  now rewrite Hnp.
Defined.

Section Unreachable.

Variable L : Libs.

Hypothesis requests_fail : forall t u, exists e, requests_get L t u = inl e.
Hypothesis newspaper_fails : forall t u, exists e, newspaper_parse L t u = inl e.
Hypothesis trafilatura_fails :
  forall t u, trafilatura_fetch_url L t u = inr None
              \/ exists e, trafilatura_fetch_url L t u = inl e.
Hypothesis selenium_fails : forall t u, exists e, selenium_get L t u = inl e.

Lemma unreachable_strategies k s url t r t' :
  nth_error (strategies L) k = Some s -> s url t = (r, t') -> r = None.
Proof.
  unfold strategies.
  destruct k as [|[|[|[|[|[|k]]]]]]; cbn [nth_error];
    try (destruct k; discriminate); intros [= <-].
  - unfold scrape_with_newspaper, guarded. rewrite bind_emit.
    unfold bind, call.
    match goal with |- context [newspaper_parse L ?t0 ?u] =>
      destruct (newspaper_fails t0 u) as [e ->] end.
    now intros [= <- _].
  - unfold scrape_with_trafilatura, guarded. rewrite bind_emit.
    unfold bind, call.
    match goal with |- context [trafilatura_fetch_url L ?t0 ?u] =>
      destruct (trafilatura_fails t0 u) as [-> | [e ->]] end;
      now intros [= <- _].
  - unfold scrape_with_readability, guarded. rewrite bind_emit.
    unfold bind, call.
    match goal with |- context [requests_get L ?t0 ?u] =>
      destruct (requests_fail t0 u) as [e ->] end.
    now intros [= <- _].
  - destruct r as [d|]; [|reflexivity]. intros H.
    apply beautifulsoup_outcome in H
      as (j & response & text & _ & _ & Hget & _).
    destruct (requests_fail (tl t') url) as [e He]. congruence.
  - unfold scrape_with_selenium, guarded. rewrite bind_emit.
    unfold with_driver, bind, ask, call.
    destruct (selenium_start L _); [now intros [= <- _]|].
    destruct (selenium_execute_script L _ _); [now intros [= <- _]|].
    match goal with |- context [selenium_get L ?t0 ?u] =>
      destruct (selenium_fails t0 u) as [e ->] end.
    now intros [= <- _].
  - unfold scrape_raw, guarded. rewrite bind_emit.
    unfold bind, call.
    match goal with |- context [requests_get L ?t0 ?u] =>
      destruct (requests_fail t0 u) as [e ->] end.
    now intros [= <- _].
Qed.

Lemma unreachable_loop ss url :
  (forall s, In s ss -> exists k, nth_error (strategies L) k = Some s) ->
  forall t res0 res t1,
    run_strategies ss url res0 t = (res, t1) -> res = res0 \/ res = None.
Proof.
  induction ss as [|s ss IH]; intros Hin t res0 res t1; cbn [run_strategies];
    [intros [= <- _]; now left|].
  destruct (s url t) as [r' t'] eqn:Es.
  destruct (Hin s (or_introl eq_refl)) as [k Hk].
  pose proof (unreachable_strategies _ _ _ _ _ _ Hk Es). subst r'.
  cbn [accepted]. intros Hrun. right.
  apply IH in Hrun as [->| ->]; [reflexivity|reflexivity|].
  intros s' Hs'. apply Hin. now right.
Qed.

End Unreachable.

(** X18: when the host cannot be reached, so that every [requests.get],
    the download of newspaper3k, the fetch of trafilatura and the browser's
    [get] fail, a request with a well-formed URL (one that [urlparse]
    accepts, with a scheme and a network location) is answered with 500
    and "All scraping methods failed" together with the URL, after all six
    strategies have been tried. *)
Theorem unreachable_host_all_failed (L : Libs) (req : Request) (url : string)
  (tr : Trace) :
  request_url req = Some url ->
  urlparse_raises L url = None ->
  fst (urlparse L url) <> "" -> snd (urlparse L url) <> "" -> url <> "" ->
  (forall t u, exists e, requests_get L t u = inl e) ->
  (forall t u, exists e, newspaper_parse L t u = inl e) ->
  (forall t u, trafilatura_fetch_url L t u = inr None
               \/ exists e, trafilatura_fetch_url L t u = inl e) ->
  (forall t u, exists e, selenium_get L t u = inl e) ->
  fst (scrape L req tr) = all_failed url
  /\ forall j, j < 6 -> In (Info (attempt_line j url)) (snd (scrape L req tr)).
Proof.
  intros Hreq Hraise Hs Hn Hne H1 H2 H3 H4.
  destruct (scrape L req tr) as [resp tr'] eqn:E. cbn [fst snd].
  apply scrape_outcome in E
    as [(e & _ & _ & _ & [Hr|(url' & err & Hr & _ & Herr & _)])
       |[([Hr|Hr] & _)
        |[(url' & Hr & _ & _ & Hbad & _)
         |(url' & res & tr1 & Hr & _ & _ & _ & _ & Hrun & Hres)]]];
    rewrite Hreq in Hr; try discriminate Hr;
    try (injection Hr as Hr; congruence); injection Hr as <-.
  - destruct Hbad; contradiction.
  - cbv zeta in Hrun.
    assert (Hnone : res = None).
    { destruct (unreachable_loop L H1 H2 H3 H4 (strategies L) url
                  (fun s Hs => In_nth_error _ _ Hs) _ _ _ _ Hrun); assumption. }
    subst res. destruct Hres as [-> ->]. split; [reflexivity|].
    intros j Hj.
    exact (run_strategies_exhausted _ _ 0 _ _ _ _
             (fun i s Hi => strategies_spec L i s Hi) Hrun eq_refl j Hj).
Qed.

Lemma unreachable_host_all_failed_witness :
  fst (scrape Examples.offline (GET [("url", Examples.page_url)]) [])
  = all_failed Examples.page_url.
Proof.
  apply (unreachable_host_all_failed Examples.offline
           (GET [("url", Examples.page_url)]) Examples.page_url []).
  - reflexivity.
  - reflexivity.
  - discriminate.
  - discriminate.
  - discriminate.
  - intros t u. now exists "ConnectionError".
  - intros t u. now exists "ArticleException".
  - intros t u. now left.
  - intros t u. now exists "WebDriverException".
Defined.

(** ** The pauses of the orchestrator *)

Section Pauses.

Variable L : Libs.

Lemma pauses_app es1 es2 : pauses (es1 ++ es2) = pauses es1 + pauses es2.
Proof.
  induction es1 as [|e es1 IH]; [reflexivity|].
  destruct e; simpl; rewrite IH; try reflexivity. lia.
Qed.

Lemma pauses_none es : Forall no_pause es -> pauses es = 0.
Proof.
  induction 1 as [|e es He _ IH]; [reflexivity|].
  destruct e; simpl; auto.
  destruct (String.eqb what "between attempts") eqn:E; [|exact IH].
  apply String.eqb_eq in E. subst what. now destruct He.
Qed.

Lemma attempts_trace_no_pause url j : Forall no_pause (attempts_trace url j).
Proof. induction j; simpl; repeat constructor; auto; discriminate. Qed.

Lemma fetch_with_retries_no_pause url left :
  triple no_pause (fetch_with_retries L url left) (fun _ => True).
Proof.
  intros tr r tr' H.
  apply fetch_with_retries_outcome in H as (j & _ & -> & _). split; [|auto].
  exists (attempts_trace url j). split; [reflexivity|].
  apply attempts_trace_no_pause.
Qed.

Ltac quiet := unfold no_pause; discriminate.

Lemma guarded_extends (P : Event -> Prop) (on_fail : string -> Event)
  (e : Event) (rest : M (option Dict)) :
  P e -> (forall msg, P (on_fail msg)) -> triple P rest (fun _ => True) ->
  forall tr r tr',
    guarded on_fail (_ <- emit e ;; rest) tr = (r, tr') -> extends P tr tr'.
Proof.
  intros He Hf Hrest tr r tr' H.
  destruct (guarded_rule P (fun _ => True) on_fail e rest He Hf I Hrest _ _ _ H)
    as [(es & -> & Hes) _].
  exists (es ++ [e])%list. split; [now rewrite <- app_assoc|].
  apply Forall_app. split; [exact Hes|]. now repeat constructor.
Qed.

Ltac quiet_strategy :=
  intros url; apply guarded_extends; [quiet|intros; quiet|].

(** No strategy sleeps the sleep between attempts. *)
Lemma strategies_no_pause k s :
  nth_error (strategies L) k = Some s ->
  forall url tr r tr', s url tr = (r, tr') -> extends no_pause tr tr'.
Proof.
  unfold strategies.
  destruct k as [|[|[|[|[|[|k]]]]]]; cbn [nth_error];
    try (destruct k; discriminate); intros [= <-].
  - unfold scrape_with_newspaper. quiet_strategy.
    step_by quiet. cbv zeta. step_by quiet; step_by quiet.
  - unfold scrape_with_trafilatura. quiet_strategy.
    repeat step_by quiet.
  - unfold scrape_with_readability. quiet_strategy.
    do 3 step_by quiet. cbv zeta. do 2 step_by quiet.
    step_by quiet; step_by quiet.
  - unfold scrape_with_beautifulsoup. quiet_strategy.
    eapply triple_bind; [apply fetch_with_retries_no_pause|intros ? _].
    step_by quiet. cbv zeta. step_by quiet. cbv zeta.
    step_by quiet; step_by quiet.
  - unfold scrape_with_selenium. quiet_strategy.
    apply with_driver_spec; [quiet|].
    do 7 step_by quiet. cbv zeta. step_by quiet. cbv zeta.
    step_by quiet; step_by quiet.
  - unfold scrape_raw. quiet_strategy.
    do 2 step_by quiet. cbv zeta. step_by quiet. cbv zeta. step_by quiet.
Qed.

(** The pauses of the loop from position [o] on: one after every rejected
    strategy. *)
Lemma run_strategies_pauses ss url :
  forall o res0 tr res tr1,
    (forall i s, nth_error ss i = Some s ->
       strategy_spec (o + i) s
       /\ forall tr r tr', s url tr = (r, tr') -> extends no_pause tr tr') ->
    accepted res0 = false ->
    run_strategies ss url res0 tr = (res, tr1) ->
    exists es,
      tr1 = (es ++ tr)%list
      /\ ((accepted res = false /\ pauses es = length ss)
          \/ exists k d,
               o <= k < o + length ss /\ res = Some d /\ result_ok k url d
               /\ pauses es = k - o).
Proof.
  induction ss as [|s ss IH]; intros o res0 tr res tr1 Hspec Hres0;
    cbn [run_strategies length].
  - intros [= <- <-]. exists []. split; [reflexivity|]. left. now split.
  - destruct (s url tr) as [r' tr'] eqn:E.
    destruct (Hspec 0 s eq_refl) as [Hs Hq].
    destruct (Hs _ _ _ _ E) as [_ Hok]. rewrite Nat.add_0_r in Hok.
    destruct (Hq _ _ _ E) as (es1 & -> & Hes1).
    apply pauses_none in Hes1.
    destruct (accepted r') eqn:Ea.
    + intros [= <- <-]. exists es1. split; [reflexivity|]. right.
      destruct r' as [d|]; [|discriminate Ea]. exists o, d.
      split; [lia|]. split; [reflexivity|]. split; [now apply Hok|lia].
    + intros Hrun. apply (IH (S o)) in Hrun; [|
        intros i s' Hi; replace (S o + i) with (o + S i) by lia;
        now apply Hspec|exact Ea].
      destruct Hrun as (es2 & -> & Hcases).
      exists (es2 ++ Sleep "between attempts" :: es1)%list.
      split; [now rewrite <- app_assoc|].
      rewrite pauses_app.
      change (pauses (Sleep "between attempts" :: es1)) with (1 + pauses es1).
      rewrite Hes1.
      destruct Hcases as [[Hr Hp]|(k & d & Hk & -> & Hd & Hp)].
      * left. split; [exact Hr|lia].
      * right. exists k, d. split; [lia|]. split; [reflexivity|].
        split; [exact Hd|lia].
Qed.

End Pauses.

(** X19: the orchestrator sleeps once after every strategy it rejects and
    never otherwise: a result of the strategy at position [k] comes after
    exactly [k] pauses, and a request on which all six strategies fail
    pauses six times, the last time after the raw fallback, when nothing is
    left to try. *)
Theorem pauses_counted (L : Libs) (url : string) (tr : Trace)
  (res : option Dict) (tr1 : Trace) :
  run_strategies (strategies L) url None tr = (res, tr1) ->
  exists es,
    tr1 = (es ++ tr)%list
    /\ ((res = None /\ pauses es = 6)
        \/ exists k d raw,
             k < 6 /\ res = Some d /\ built_from k url raw d
             /\ pauses es = k).
Proof.
  intros Hrun.
  destruct (run_strategies_pauses (strategies L) url 0 None tr res tr1
              (fun i s Hi => conj (strategies_spec L i s Hi)
                                  (strategies_no_pause L i s Hi url))
              eq_refl Hrun) as (es & -> & Hcases).
  exists es. split; [reflexivity|].
  destruct Hcases as [[Hr Hp]|(k & d & Hk & -> & (raw & Hb & _) & Hp)].
  - left. split; [|exact Hp].
    destruct (run_strategies_result _ _ 0 _ _ _ _
                (fun i s Hi => strategies_spec L i s Hi) Hrun)
      as [[Hnil _]|[->|(k & d & _ & -> & Hd)]];
      [discriminate Hnil|reflexivity|].
    apply result_ok_accepted in Hd. congruence.
  - right. exists k, d, raw. split; [exact (proj2 Hk)|].
    repeat split; [exact Hb|lia].
Qed.

Lemma pauses_counted_witness :
  exists es,
    snd (run_strategies (strategies Examples.error_page) Examples.page_url
           None []) = es
    /\ pauses es = 2.
Proof.
  destruct (run_strategies (strategies Examples.error_page) Examples.page_url
              None []) as [res tr1] eqn:E.
  destruct (pauses_counted _ _ _ _ _ E) as (es & -> & Hcases).
  exists es. cbn [snd]. split; [now rewrite app_nil_r|].
  destruct Hcases as [[-> _]|(k & d & raw & Hk & -> & Hb & Hp)];
    [vm_compute in E; discriminate E|].
  rewrite Hp. apply built_from_fields in Hb as (Hm & _).
  vm_compute in E. injection E as Hd _. subst d.
  do 6 (destruct k as [|k]; [first [reflexivity|discriminate Hm]|]). lia.
Defined.

(** ** The publication date *)

Lemma extract_date_at soup sels :
  forall k sel elem,
    nth_error sels k = Some sel ->
    Soup.find soup sel = Some elem ->
    (forall j sel', j < k -> nth_error sels j = Some sel' ->
       Soup.find soup sel' = None) ->
    extract_date soup sels = Some (date_of elem).
Proof.
  induction sels as [|s sels IH]; intros [|k] sel elem; cbn [nth_error];
    try discriminate.
  - intros [= ->] Hfind _. cbn [extract_date]. now rewrite Hfind.
  - intros Hk Hfind Hbefore. cbn [extract_date].
    rewrite (Hbefore 0 s ltac:(lia) eq_refl).
    apply (IH k sel); auto. intros j sel' Hj Hsel'.
    apply (Hbefore (S j)); [lia|exact Hsel'].
Qed.

Lemma extract_date_none soup sels :
  extract_date soup sels = None <->
  forall sel, In sel sels -> Soup.find soup sel = None.
Proof.
  induction sels as [|s sels IH]; cbn [extract_date].
  - split; [intros _ sel []|reflexivity].
  - destruct (Soup.find soup s) eqn:E.
    + split; [discriminate|]. intros H.
      specialize (H s (or_introl eq_refl)). congruence.
    + rewrite IH. split.
      * intros H sel [<-|Hs]; auto.
      * intros H sel Hs. apply H. now right.
Qed.

(** X20: the publication date comes from the first of the five date
    selectors that finds an element, whatever that element holds: its
    [content] attribute when not empty, else its [datetime] attribute when
    not empty, else its stripped text, which may be empty.  The date is
    null exactly when none of the five finds an element. *)
Theorem publish_date_from_first_matching_selector (L : Libs)
  (soup : list Node) (url : string) :
  (forall k sel elem,
      nth_error date_selectors k = Some sel ->
      Soup.find soup sel = Some elem ->
      (forall j sel', j < k -> nth_error date_selectors j = Some sel' ->
         Soup.find soup sel' = None) ->
      publish_date (extract_metadata L soup url) = Some (date_of elem)
      /\ (forall c, Soup.get elem "content" = Some c -> c <> "" ->
          date_of elem = c)
      /\ (forall d, (Soup.get elem "content" = None
                     \/ Soup.get elem "content" = Some "") ->
          Soup.get elem "datetime" = Some d -> d <> "" -> date_of elem = d))
  /\ (publish_date (extract_metadata L soup url) = None <->
      forall sel, In sel date_selectors -> Soup.find soup sel = None).
Proof.
  split.
  - intros k sel elem Hk Hfind Hbefore.
    split; [exact (extract_date_at soup _ k sel elem Hk Hfind Hbefore)|].
    unfold date_of. split.
    + intros c -> Hc. destruct c; [contradiction|reflexivity].
    + intros d Hcontent -> Hd.
      destruct d; [contradiction|].
      destruct Hcontent as [-> | ->]; reflexivity.
  - apply extract_date_none.
Qed.

Lemma publish_date_from_first_matching_selector_witness :
  publish_date
    (extract_metadata Examples.offline
       [NElem "time" [("datetime", "2024-05-01")] [NText "May 1st"]]
       Examples.page_url)
  = Some "2024-05-01".
Proof.
  destruct (proj1 (publish_date_from_first_matching_selector Examples.offline
                     [NElem "time" [("datetime", "2024-05-01")]
                        [NText "May 1st"]] Examples.page_url)
              3 _ _ eq_refl eq_refl) as (Hd & _).
  - intros j sel' Hj Hsel.
    do 3 (destruct j as [|j];
          [cbv [date_selectors nth_error] in Hsel; injection Hsel as <-;
           reflexivity|]).
    lia.
  - rewrite Hd. reflexivity.
Defined.
